(** * Document-processing pipeline: parser, summarizer, Q&A, entity and
      validation agents, and the upload route.

    A shallow embedding of
      - backend/agents/validation_agent.py
      - backend/agents/summarizer_agent.py
      - backend/agents/qa_agent.py
      - backend/agents/parser_agent.py
      - backend/agents/entity_agent.py   (extract)
      - backend/routes/documents.py      (upload_document)

    Conventions.
      - A Python [str] is a [string]; its i-th [ascii] is the code point
        (0..255) of the i-th character.
      - A Python exception is a value of [exn]; a call that may raise
        returns [res].
      - Effects (HTTP posts, file reads and writes, the document store) are
        threaded through a [world]; the behaviour of the hosted model, of
        the file system and of the decoding libraries is a parameter of the
        development.
      - [log_agent_action] only feeds the logging sink and is left out. *)

From Stdlib Require Import Ascii NArith ZArith Bool Lia.
From stdpp Require Import base option list strings pretty gmap fin_maps.

Local Open Scope N_scope.
Local Open Scope Z_scope.
Local Open Scope nat_scope.

(** ** Python built-ins on [str] used by the agents *)

Module Py.

(** [c.isspace()] on code points below 256: TAB..CR, FS..US, SPACE,
    NEL (0x85) and NBSP (0xA0). *)
Definition isspace (c : ascii) : bool :=
  let n := N_of_ascii c in
  ((9 <=? n) && (n <=? 13) || (28 <=? n) && (n <=? 32)
   || (n =? 133) || (n =? 160))%N.

Definition nonempty (s : string) : bool :=
  match s with EmptyString => false | String _ _ => true end.

(** [len(s)] *)
Definition len (s : string) : nat := String.length s.

(** Append one character at the end of a token under construction. *)
Definition snoc (s : string) (c : ascii) : string := s +:+ String c "".

(** [s.split()] with no argument: the maximal runs of non-whitespace
    characters, left to right. [cur] is the run being read. *)
Fixpoint split_from (cur : string) (s : string) : list string :=
  match s with
  | EmptyString => if nonempty cur then [cur] else []
  | String c s' =>
      if isspace c
      then (if nonempty cur then cur :: split_from "" s' else split_from "" s')
      else split_from (snoc cur c) s'
  end.

Definition split (s : string) : list string := split_from "" s.

(** [s.lstrip()], [s.rstrip()], [s.strip()] with no argument. *)
Fixpoint lstrip (s : string) : string :=
  match s with
  | EmptyString => ""
  | String c s' => if isspace c then lstrip s' else s
  end.

Fixpoint rstrip (s : string) : string :=
  match s with
  | EmptyString => ""
  | String c s' =>
      let r := rstrip s' in
      if isspace c && negb (nonempty r) then "" else String c r
  end.

Definition strip (s : string) : string := rstrip (lstrip s).

(** [s[:n]] for a non-negative [n]. *)
Fixpoint slice_to (n : nat) (s : string) : string :=
  match n, s with
  | S n', String c s' => String c (slice_to n' s')
  | _, _ => ""
  end.

(** [s.endswith(suffix)] *)
Fixpoint endswith (s suffix : string) : bool :=
  if String.eqb s suffix then true
  else match s with
       | EmptyString => false
       | String _ s' => endswith s' suffix
       end.

(** [s.endswith((a, b, ...))] with a tuple of suffixes. *)
Definition endswith_any (s : string) (suffixes : list string) : bool :=
  existsb (endswith s) suffixes.

(** [s.startswith(prefix)] *)
Fixpoint startswith (s prefix : string) : bool :=
  match prefix, s with
  | EmptyString, _ => true
  | String p prefix', String c s' => Ascii.eqb p c && startswith s' prefix'
  | String _ _, EmptyString => false
  end.

(** [sub in s] *)
Fixpoint contains (sub s : string) : bool :=
  startswith s sub ||
  match s with
  | EmptyString => false
  | String _ s' => contains sub s'
  end.

(** [sep.join(parts)] *)
Fixpoint join (sep : string) (parts : list string) : string :=
  match parts with
  | [] => ""
  | [p] => p
  | p :: rest => p +:+ sep +:+ join sep rest
  end.

(** ["c" * n] *)
Fixpoint repeat_char (c : ascii) (n : nat) : string :=
  match n with
  | O => ""
  | S n' => String c (repeat_char c n')
  end.

(** Every character is whitespace (true of the empty string too). *)
Fixpoint all_space (s : string) : bool :=
  match s with
  | EmptyString => true
  | String c s' => isspace c && all_space s'
  end.

Definition newline : string := String (ascii_of_nat 10) "".

End Py.

(** ** Exceptions and results *)

Inductive exn : Type :=
| RequestException (msg : string)            (* requests.exceptions.RequestException *)
| UnsupportedFileFormatError (msg : string)  (* backend.utils.exceptions *)
| DocumentParsingError (msg : string)        (* backend.utils.exceptions *)
| OtherException (msg : string).             (* any other subclass of Exception *)

(** [str(e)] *)
Definition str_of_exn (e : exn) : string :=
  match e with
  | RequestException m | UnsupportedFileFormatError m
  | DocumentParsingError m | OtherException m => m
  end.

Inductive res (A : Type) : Type :=
| Ok (a : A)
| Raise (e : exn).
Arguments Ok {A} a.
Arguments Raise {A} e.

(** ** backend/agents/validation_agent.py *)

(** Values held by the dictionaries the agents exchange: a list of strings
    (an entity category) or a string (the rollback message). *)
Inductive pyval : Type :=
| VList (items : list string)
| VStr (s : string).

(** [len(v)] *)
Definition py_len (v : pyval) : nat :=
  match v with
  | VList items => length items
  | VStr s => Py.len s
  end.

Module ValidationAgent.

(** [bool(summary and len(summary.split()) > 5)]; [None] is the Python
    [None]. *)
Definition validate_summary (summary : option string) : bool :=
  match summary with
  | None => false
  | Some s => Py.nonempty s && (5 <? length (Py.split s))
  end.

(** [any(len(v) > 0 for v in entities.values())] *)
Definition validate_entities (entities : gmap string pyval) : bool :=
  existsb (λ v, 0 <? py_len v) (map_to_list entities).*2.

Definition rollback_summary : string :=
  "Summary rolled back due to low quality.".

Definition rollback_entities : string :=
  "Entities rolled back due to low confidence.".

End ValidationAgent.

(** ** The outside world *)

(** One entry of the chat-completion request's [messages]. *)
Record message : Type := { role : string; content : string }.

(** The arguments of one [requests.post] call. *)
Record request : Type := {
  url : string;
  api_key : string;           (* headers["api-key"] *)
  messages : list message;    (* json["messages"] *)
  max_tokens : Z;             (* json["max_tokens"] *)
  timeout : Z
}.

(** The response object: [resp.status_code], [resp.text], and what
    evaluating [resp.json()["choices"][0]["message"]["content"]] gives,
    a string or the exception raised on the way. *)
Record response : Type := {
  status_code : Z;
  text : string;
  json_content : res string
}.

Inductive post_outcome : Type :=
| Responded (r : response)
| PostRaised (e : exn).

(** The files written so far, by path. *)
Abbreviation files := (gmap string (list Byte.byte)).

(** How saving a file ends: it is written, or an exception is raised (by
    [open], as [FileNotFoundError] for a path whose directory is missing, or
    by reading or writing the data) with [leftover] at the path, [None] when
    the attempt left the files as they were. *)
Inductive write_outcome : Type :=
| Written
| WriteRaised (e : exn) (leftover : option (list Byte.byte)).

(** What the process cannot decide: configuration, the hosted model (its
    answer may depend on the requests it has already received), the file
    system, and the decoding libraries applied to the file found at a
    path. *)
Record env : Type := {
  AZURE_OPENAI_API_KEY : string;
  AZURE_OPENAI_ENDPOINT : string;
  AZURE_OPENAI_DEPLOYMENT_NAME : string;
  (* [requests.post(url, headers=.., json=.., timeout=..)] after [history] *)
  requests_post : list request → request → post_outcome;
  (* [page.get_text("text")] of each page of [fitz.open(path)], in order *)
  fitz_open : files → string → res (list string);
  (* [p.text] of each paragraph of [docx.Document(path)], in order *)
  docx_Document : files → string → res (list string);
  (* [BeautifulSoup(open(path), "html.parser").get_text(separator="\n")] *)
  bs4_get_text : files → string → res string;
  (* [with open(path, "wb") as f: f.write(data)] *)
  file_write : files → string → list Byte.byte → write_outcome
}.

(** A record of [documents_store]. *)
Record document : Type := {
  doc_filename : string;
  doc_text : string;
  doc_summary : string;
  doc_entities : gmap string pyval
}.

Record world : Type := {
  posted : list request;                (* [requests.post] calls, oldest first *)
  opened : list string;                 (* paths opened for reading, oldest first *)
  written : files;                      (* files written under UPLOAD_DIR *)
  documents_store : gmap string document
}.

Definition M (A : Type) : Type := world → res A * world.

Definition ret {A} (a : A) : M A := λ w, (Ok a, w).

Definition raise {A} (e : exn) : M A := λ w, (Raise e, w).

Definition bind {A B} (m : M A) (k : A → M B) : M B :=
  λ w, match m w with
       | (Ok a, w') => k a w'
       | (Raise e, w') => (Raise e, w')
       end.

#[global] Instance M_ret : MRet M := @ret.
#[global] Instance M_bind : MBind M := λ A B k m, bind m k.

(** [try: m  except ... as e: h e] *)
Definition try_except {A} (m : M A) (h : exn → M A) : M A :=
  λ w, match m w with
       | (Ok a, w') => (Ok a, w')
       | (Raise e, w') => h e w'
       end.

Definition lift {A} (r : res A) : M A := λ w, (r, w).

Definition post (E : env) (rq : request) : M response :=
  λ w,
    let w' := {| posted := posted w ++ [rq]; opened := opened w;
                 written := written w; documents_store := documents_store w |} in
    match requests_post E (posted w) rq with
    | Responded r => (Ok r, w')
    | PostRaised e => (Raise e, w')
    end.

(** Run a decoding library on the file at [path]. *)
Definition open_with {A} (decode : files → string → res A) (path : string)
  : M A :=
  λ w, (decode (written w) path,
        {| posted := posted w; opened := opened w ++ [path];
           written := written w; documents_store := documents_store w |}).

(** [with open(path, "wb") as f: f.write(data)] *)
Definition write_file (E : env) (path : string) (data : list Byte.byte)
  : M unit :=
  λ w,
    let holding bytes :=
      {| posted := posted w; opened := opened w;
         written := <[path := bytes]> (written w);
         documents_store := documents_store w |} in
    match file_write E (written w) path data with
    | Written => (Ok tt, holding data)
    | WriteRaised e None => (Raise e, w)
    | WriteRaised e (Some leftover) => (Raise e, holding leftover)
    end.

(** [documents_store[doc_id] = d] *)
Definition store (doc_id : string) (d : document) : M unit :=
  λ w, (Ok tt,
        {| posted := posted w; opened := opened w; written := written w;
           documents_store := <[doc_id := d]> (documents_store w) |}).

Definition completions_url (E : env) : string :=
  AZURE_OPENAI_ENDPOINT E +:+ "/openai/deployments/" +:+
  AZURE_OPENAI_DEPLOYMENT_NAME E +:+
  "/chat/completions?api-version=2024-05-01-preview".

(** ** backend/agents/summarizer_agent.py *)

Module SummarizerAgent.

Definition system_prompt : string := "You are a document summarization agent.".

Definition _call_llm (E : env) (user_content : string) : M string :=
  let body_messages :=
    [ {| role := "system"; content := system_prompt |};
      {| role := "user"; content := Py.slice_to 4000 user_content |} ] in
  try_except
    (resp ← post E {| url := completions_url E;
                      api_key := AZURE_OPENAI_API_KEY E;
                      messages := body_messages;
                      max_tokens := 500;
                      timeout := 30 |};
     if (status_code resp =? 200)%Z then
       c ← lift (json_content resp);
       let output := Py.strip c in
       ret (if Py.nonempty output then output else "No summary generated.")
     else
       ret ("Summarization failed: " +:+ text resp))
    (λ e, match e with
          | RequestException _ =>
              ret ("Summarization failed due to network error: " +:+ str_of_exn e)
          | _ =>
              ret ("Summarization failed due to unexpected error: " +:+ str_of_exn e)
          end).

Definition summarize_section (E : env) (text : string) : M string :=
  _call_llm E ("Summarize this section:" +:+ Py.newline +:+ text).

Definition summarize_document (E : env) (text : string) : M string :=
  _call_llm E ("Provide a section-wise summary of this document:"
               +:+ Py.newline +:+ text).

Definition summarize_corpus (E : env) (texts : list string) : M string :=
  let joined := Py.join (Py.newline +:+ Py.newline) texts in
  _call_llm E ("Summarize across documents:" +:+ Py.newline +:+ joined).

End SummarizerAgent.

(** ** backend/agents/qa_agent.py *)

Module QAAgent.

Definition system_prompt : string :=
  "You are a Q&A assistant. Answer based only on the provided document. If the answer is not in the document, say so clearly.".

Definition ask (E : env) (question doc_text : string) : M string :=
  if negb (Py.nonempty (Py.strip question)) then ret "No question provided."
  else if negb (Py.nonempty (Py.strip doc_text)) then
    ret "No document content available."
  else
    let body_messages :=
      [ {| role := "system"; content := system_prompt |};
        {| role := "user";
           content := "Document:" +:+ Py.newline +:+ Py.slice_to 4000 doc_text
                      +:+ Py.newline +:+ Py.newline +:+ "Question: "
                      +:+ question |} ] in
    try_except
      (resp ← post E {| url := completions_url E;
                        api_key := AZURE_OPENAI_API_KEY E;
                        messages := body_messages;
                        max_tokens := 300;
                        timeout := 30 |};
       if (status_code resp =? 200)%Z then
         c ← lift (json_content resp);
         let ans := Py.strip c in
         ret (if Py.nonempty ans then ans else "No relevant answer found.")
       else
         ret ("Q&A failed: HTTP " +:+ pretty (status_code resp) +:+ " - "
              +:+ text resp))
      (λ e, match e with
            | RequestException _ =>
                ret ("Q&A failed due to network error: " +:+ str_of_exn e)
            | _ =>
                ret ("Q&A failed due to unexpected error: " +:+ str_of_exn e)
            end).

End QAAgent.

(** ** backend/agents/parser_agent.py *)

Module ParserAgent.

Definition _parse_pdf (E : env) (file_path : string) : M string :=
  try_except
    (pages ← open_with (fitz_open E) file_path;
     let text :=
       fold_left (λ text page, text +:+ (page +:+ Py.newline)) pages "" in
     ret (Py.strip text))
    (λ e, raise (DocumentParsingError ("Failed parsing PDF: " +:+ str_of_exn e))).

Definition _parse_docx (E : env) (file_path : string) : M string :=
  try_except
    (paragraphs ← open_with (docx_Document E) file_path;
     ret (Py.join Py.newline (filter (λ p, Py.nonempty p = true) paragraphs)))
    (λ e, raise (DocumentParsingError ("Failed parsing DOCX: " +:+ str_of_exn e))).

Definition _parse_html (E : env) (file_path : string) : M string :=
  try_except
    (open_with (bs4_get_text E) file_path)
    (λ e, raise (DocumentParsingError ("Failed parsing HTML: " +:+ str_of_exn e))).

Definition parse (E : env) (file_path : string) : M string :=
  if Py.endswith file_path ".pdf" then _parse_pdf E file_path
  else if Py.endswith file_path ".docx" then _parse_docx E file_path
  else if Py.endswith file_path ".html" then _parse_html E file_path
  else raise (UnsupportedFileFormatError ("Unsupported file: " +:+ file_path)).

End ParserAgent.

(** ** The fragment of [re] the entity patterns are written in *)

Module Re.

Definition between (lo hi : N) (c : ascii) : bool :=
  let n := N_of_ascii c in ((lo <=? n) && (n <=? hi))%N.

Definition upper : ascii → bool := between 65 90.      (* [A-Z] *)
Definition lower : ascii → bool := between 97 122.     (* [a-z] *)
Definition alpha (c : ascii) : bool := upper c || lower c.   (* [A-Za-z] *)
Definition digit : ascii → bool := between 48 57.      (* \d *)
Definition dash_or_slash (c : ascii) : bool :=         (* [-/] *)
  (N_of_ascii c =? 45)%N || (N_of_ascii c =? 47)%N.

(** [\w] on code points below 256: letters, digits, underscore, and the
    Latin-1 characters that are alphabetic or numeric. *)
Definition word (c : ascii) : bool :=
  let n := N_of_ascii c in
  alpha c || digit c ||
  ((n =? 95) || (n =? 170) || (n =? 178) || (n =? 179) || (n =? 181)
   || (n =? 185) || (n =? 186) || (188 <=? n) && (n <=? 190)
   || (192 <=? n) && (n <=? 214) || (216 <=? n) && (n <=? 246)
   || (248 <=? n))%N.

Inductive item : Type :=
| Boundary                                              (* \b *)
| Lit (c : ascii)                                       (* a literal character *)
| Class (p : ascii → bool) (lo : nat) (hi : option nat) (* [..]{lo,hi}, greedy *)
| Alt (alternatives : list string).                     (* (?:s1|s2|...) *)

Definition regex : Type := list item.

Definition is_word_opt (c : option ascii) : bool :=
  match c with Some c => word c | None => false end.

Definition head (s : string) : option ascii :=
  match s with EmptyString => None | String c _ => Some c end.

(** [\b] holds between [prev] and the first character of [s]. *)
Definition at_boundary (prev : option ascii) (s : string) : bool :=
  xorb (is_word_opt prev) (is_word_opt (head s)).

(** Move [n] characters to the right. *)
Fixpoint advance (n : nat) (prev : option ascii) (s : string)
  : option ascii * string :=
  match n, s with
  | S n', String c s' => advance n' (Some c) s'
  | _, _ => (prev, s)
  end.

Definition below (n : nat) (cap : option nat) : bool :=
  match cap with None => true | Some h => n <? h end.

(** Length of the longest prefix of [s] in class [p], at most [cap]. *)
Fixpoint run_length (p : ascii → bool) (cap : option nat) (taken : nat)
  (s : string) : nat :=
  match s with
  | String c s' =>
      if p c && below taken cap then run_length p cap (S taken) s' else taken
  | EmptyString => taken
  end.

(** Backtracking match of [r] at the start of [s], [prev] being the
    character before it: the number of characters matched. *)
Fixpoint match_here (r : regex) (prev : option ascii) (s : string)
  : option nat :=
  match r with
  | [] => Some 0
  | Boundary :: r' =>
      if at_boundary prev s then match_here r' prev s else None
  | Lit c :: r' =>
      match s with
      | String d s' =>
          if Ascii.eqb c d then S <$> match_here r' (Some d) s' else None
      | EmptyString => None
      end
  | Class p lo hi :: r' =>
      (fix try (n : nat) : option nat :=
         if n <? lo then None
         else
           let '(prev', s') := advance n prev s in
           match match_here r' prev' s' with
           | Some k => Some (n + k)
           | None => match n with O => None | S n' => try n' end
           end) (run_length p hi 0 s)
  | Alt alternatives :: r' =>
      (fix alt (l : list string) : option nat :=
         match l with
         | [] => None
         | a :: l' =>
             if Py.startswith s a then
               let '(prev', s') := advance (Py.len a) prev s in
               match match_here r' prev' s' with
               | Some k => Some (Py.len a + k)
               | None => alt l'
               end
             else alt l'
         end) alternatives
  end.

(** Left-to-right scan for non-overlapping matches; [skip] characters of
    the last match are still to be passed. *)
Fixpoint scan (r : regex) (skip : nat) (prev : option ascii) (s : string)
  : list string :=
  match s with
  | EmptyString =>
      match skip, match_here r prev "" with
      | O, Some _ => [""]
      | _, _ => []
      end
  | String c s' =>
      match skip with
      | S k => scan r k (Some c) s'
      | O =>
          match match_here r prev s with
          | Some (S k) => Py.slice_to (S k) s :: scan r k (Some c) s'
          | Some O => "" :: scan r 0 (Some c) s'
          | None => scan r 0 (Some c) s'
          end
      end
  end.

(** [re.findall(r, s)] for a pattern without capturing groups. *)
Definition findall (r : regex) (s : string) : list string := scan r 0 None s.

End Re.

(** ** backend/agents/entity_agent.py *)

Module EntityAgent.

(** [\b[A-Z][a-z]+ [A-Z][a-z]+\b] *)
Definition name_pattern : Re.regex :=
  [ Re.Boundary; Re.Class Re.upper 1 (Some 1); Re.Class Re.lower 1 None;
    Re.Lit " "; Re.Class Re.upper 1 (Some 1); Re.Class Re.lower 1 None;
    Re.Boundary ].

(** [\b\d{1,2}[-/]\d{1,2}[-/]\d{2,4}\b] *)
Definition date_pattern : Re.regex :=
  [ Re.Boundary; Re.Class Re.digit 1 (Some 2);
    Re.Class Re.dash_or_slash 1 (Some 1); Re.Class Re.digit 1 (Some 2);
    Re.Class Re.dash_or_slash 1 (Some 1); Re.Class Re.digit 2 (Some 4);
    Re.Boundary ].

(** [\b[A-Z][A-Za-z]+(?: Corp| Inc| Ltd| University)\b] *)
Definition org_pattern : Re.regex :=
  [ Re.Boundary; Re.Class Re.upper 1 (Some 1); Re.Class Re.alpha 1 None;
    Re.Alt [" Corp"; " Inc"; " Ltd"; " University"]; Re.Boundary ].

(** [list(set(xs))]: the distinct elements, in the set's own order. *)
Definition list_of_set (xs : list string) : list string :=
  elements (list_to_set xs : gset string).

Definition extract (text : string) : gmap string pyval :=
  let names := Re.findall name_pattern text in
  let dates := Re.findall date_pattern text in
  let orgs := Re.findall org_pattern text in
  {[ "names" := VList (list_of_set names);
     "dates" := VList (list_of_set dates);
     "organizations" := VList (list_of_set orgs) ]}.

End EntityAgent.

(** ** backend/routes/documents.py *)

Module Documents.

Definition UPLOAD_DIR : string := "uploaded_docs".

(** [os.path.join(a, b)] on POSIX. *)
Definition os_path_join (a b : string) : string :=
  if Py.startswith b "/" then b
  else if negb (Py.nonempty a) || Py.endswith a "/" then a +:+ b
  else a +:+ "/" +:+ b.

(** The uploaded file: [file.filename] and the bytes [file.read()] gives. *)
Record UploadFile : Type := { filename : string; data : list Byte.byte }.

(** The JSON object the route answers with. *)
Record upload_response : Type := {
  r_doc_id : string;
  r_filename : string;
  r_summary : string;
  r_entities : gmap string pyval
}.

(** [doc_id] is the value [str(uuid.uuid4())] takes in this call. *)
Definition upload_document (E : env) (file : UploadFile) (doc_id : string)
  : M upload_response :=
  if negb (Py.endswith_any (filename file) [".pdf"; ".docx"; ".html"]) then
    raise (UnsupportedFileFormatError "Unsupported file format")
  else
    let file_path :=
      os_path_join UPLOAD_DIR (doc_id +:+ "_" +:+ filename file) in
    write_file E file_path (data file);;
    text ← ParserAgent.parse E file_path;
    summary ← SummarizerAgent.summarize_document E text;
    let summary :=
      if negb (ValidationAgent.validate_summary (Some summary))
      then ValidationAgent.rollback_summary else summary in
    let entities := EntityAgent.extract text in
    let entities :=
      if negb (ValidationAgent.validate_entities entities)
      then {[ "error" := VStr ValidationAgent.rollback_entities ]}
      else entities in
    store doc_id {| doc_filename := filename file; doc_text := text;
                    doc_summary := summary; doc_entities := entities |};;
    mret {| r_doc_id := doc_id; r_filename := filename file;
            r_summary := summary; r_entities := entities |}.

End Documents.

(** ** backend/agents/entity_agent.py: the validation call *)

Module EntityValidation.

Definition system_prompt : string :=
  "You are an entity validation assistant. Check if the extracted entities are correct and relevant to the given text.".

(** [EntityAgent.validate_entities(text, entities)]; [entities_text] is
    the text [str(entities)] that the f-string interpolates. *)
Definition validate_entities (E : env) (text entities_text : string)
  : M string :=
  let body_messages :=
    [ {| role := "system"; content := system_prompt |};
      {| role := "user";
         content := "Check if these entities are correct for the text:"
                    +:+ Py.newline +:+ Py.slice_to 3000 text +:+ Py.newline
                    +:+ "Entities: " +:+ entities_text |} ] in
  try_except
    (resp ← post E {| url := completions_url E;
                      api_key := AZURE_OPENAI_API_KEY E;
                      messages := body_messages;
                      max_tokens := 200;
                      timeout := 30 |};
     if (status_code resp =? 200)%Z then
       c ← lift (json_content resp);
       let validation := Py.strip c in
       mret validation
     else
       mret ("Entity validation failed: HTTP " +:+ pretty (status_code resp)))
    (λ e, match e with
          | RequestException _ =>
              ret ("Entity validation failed due to network error: "
                   +:+ str_of_exn e)
          | _ =>
              ret ("Entity validation failed due to unexpected error: "
                   +:+ str_of_exn e)
          end).

End EntityValidation.

(** ** backend/routes/summary.py, qa.py, mcp.py *)

Module Routes.

(** What a route hands to the framework: a JSON reply, an [HTTPException],
    or an exception of an agent passing through. *)
Inductive outcome (A : Type) : Type :=
| Reply (a : A)
| HTTPException (status : Z) (detail : string)
| Propagated (e : exn).
Arguments Reply {A} a.
Arguments HTTPException {A} status detail.
Arguments Propagated {A} e.

Definition R (A : Type) : Type := world → outcome A * world.

Definition not_found {A} : R A :=
  λ w, (HTTPException 404 "Document not found", w).

(** [{"doc_id": .., "summary": ..}] *)
Record summary_reply : Type := { s_doc_id : string; s_summary : string }.

(** [{"doc_id": .., "summary": .., "status": ..}] *)
Record update_reply : Type := {
  u_doc_id : string; u_summary : string; u_status : string
}.

(** [{"doc_id": .., "question": .., "answer": ..}] *)
Record answer_reply : Type := {
  a_doc_id : string; a_question : string; a_answer : string
}.



Definition get_summary (doc_id : string) : R summary_reply :=
  λ w, match documents_store w !! doc_id with
       | None => not_found w
       | Some d =>
           (Reply {| s_doc_id := doc_id; s_summary := doc_summary d |}, w)
       end.

(** [documents_store[doc_id]["summary"] = updated_summary] rewrites one
    field of the stored record in place. *)
Definition update_summary (doc_id updated_summary : string) : R update_reply :=
  λ w, match documents_store w !! doc_id with
       | None => not_found w
       | Some d =>
           (Reply {| u_doc_id := doc_id; u_summary := updated_summary;
                     u_status := "updated" |},
            {| posted := posted w; opened := opened w; written := written w;
               documents_store :=
                 <[doc_id := {| doc_filename := doc_filename d;
                                doc_text := doc_text d;
                                doc_summary := updated_summary;
                                doc_entities := doc_entities d |}]>
                   (documents_store w) |})
       end.

Definition ask_question (E : env) (doc_id question : string) : R answer_reply :=
  λ w, match documents_store w !! doc_id with
       | None => not_found w
       | Some d =>
           match QAAgent.ask E question (doc_text d) w with
           | (Ok answer, w') =>
               (Reply {| a_doc_id := doc_id; a_question := question;
                         a_answer := answer |}, w')
           | (Raise e, w') => (Propagated e, w')
           end
       end.

(** [c.lower()] on code points below 256: A..Z and the capital letters
    0xC0..0xDE other than the multiplication sign 0xD7 move up by 32. *)
Definition lower_char (c : ascii) : ascii :=
  let n := N_of_ascii c in
  if ((65 <=? n) && (n <=? 90)
      || (192 <=? n) && (n <=? 222) && negb (n =? 215))%N
  then ascii_of_N (n + 32) else c.

(** [s.lower()] *)
Fixpoint lower (s : string) : string :=
  match s with
  | EmptyString => EmptyString
  | String c s' => String (lower_char c) (lower s')
  end.


End Routes.

(** ** backend/utils/helpers.py: sanitize_filename *)

Module Helpers.

Definition double_quote : ascii := ascii_of_nat 34.

(** The character class of the first substitution: less-than,
    greater-than, colon, double quote, slash, backslash, bar, question
    mark, star. *)
Definition unsafe (c : ascii) : bool :=
  existsb (Ascii.eqb c)
    ["<"; ">"; ":"; double_quote; "/"; "\"; "|"; "?"; "*"]%char.

Definition is_underscore (c : ascii) : bool := Ascii.eqb c "_".

(** The first [re.sub]: every unsafe character becomes an underscore. *)
Fixpoint replace_unsafe (s : string) : string :=
  match s with
  | EmptyString => EmptyString
  | String c s' =>
      String (if unsafe c then "_"%char else c) (replace_unsafe s')
  end.

Definition starts_with_underscore (s : string) : bool :=
  match s with
  | EmptyString => false
  | String c _ => is_underscore c
  end.

(** [re.sub(r'_+', '_', s)]: every run of underscores becomes one. *)
Fixpoint collapse_underscores (s : string) : string :=
  match s with
  | EmptyString => EmptyString
  | String c s' =>
      if is_underscore c && starts_with_underscore s'
      then collapse_underscores s'
      else String c (collapse_underscores s')
  end.

(** [s.lstrip('_')], [s.rstrip('_')], [s.strip('_')] *)
Fixpoint lstrip_underscores (s : string) : string :=
  match s with
  | EmptyString => EmptyString
  | String c s' => if is_underscore c then lstrip_underscores s' else s
  end.

Fixpoint rstrip_underscores (s : string) : string :=
  match s with
  | EmptyString => EmptyString
  | String c s' =>
      let r := rstrip_underscores s' in
      if is_underscore c && negb (Py.nonempty r) then EmptyString
      else String c r
  end.

Definition strip_underscores (s : string) : string :=
  rstrip_underscores (lstrip_underscores s).

Definition sanitize_filename (filename : string) : string :=
  let sanitized := replace_unsafe filename in
  let sanitized := collapse_underscores sanitized in
  let sanitized := strip_underscores sanitized in
  if Py.nonempty sanitized then sanitized else "document".

End Helpers.

(** ** Reference notions the properties are stated with *)

Module Spec.

(** Number of whitespace-delimited tokens: a token starts at every
    non-whitespace character that is first or preceded by whitespace. *)
Fixpoint token_starts (after_space : bool) (s : string) : nat :=
  match s with
  | EmptyString => 0
  | String c s' =>
      (if after_space && negb (Py.isspace c) then 1 else 0)
      + token_starts (Py.isspace c) s'
  end.

Definition token_count (s : string) : nat := token_starts true s.

(** The characters of [s] that are not whitespace. *)
Fixpoint without_space (s : string) : string :=
  match s with
  | EmptyString => ""
  | String c s' =>
      if Py.isspace c then without_space s' else String c (without_space s')
  end.

Fixpoint concat (parts : list string) : string :=
  match parts with
  | [] => ""
  | p :: rest => p +:+ concat rest
  end.

(** The extension of a path: its last "." and what follows, empty when the
    path has no ".". *)
Fixpoint extension (path : string) : string :=
  match path with
  | EmptyString => ""
  | String c rest =>
      let e := extension rest in
      if Py.nonempty e then e
      else if Ascii.eqb c "." then path else ""
  end.

Definition supported_extensions : list string := [".pdf"; ".docx"; ".html"].

(** The three-category record the extractor returns. *)
Definition entity_set (names dates organizations : list string)
  : gmap string pyval :=
  {[ "names" := VList names;
     "dates" := VList dates;
     "organizations" := VList organizations ]}.

(** The record stored in place of the entities after a rollback. *)
Definition rollback_record : gmap string pyval :=
  {[ "error" := VStr "Entities rolled back due to low confidence." ]}.

(** The request the summarizer posts for the user content [user]. *)
Definition summarizer_request (E : env) (user : string) : request :=
  {| url := completions_url E;
     api_key := AZURE_OPENAI_API_KEY E;
     messages := [ {| role := "system";
                      content := "You are a document summarization agent." |};
                   {| role := "user"; content := user |} ];
     max_tokens := 500;
     timeout := 30 |}.

Definition section_prompt : string :=
  "Summarize this section:" +:+ Py.newline.
Definition document_prompt : string :=
  "Provide a section-wise summary of this document:" +:+ Py.newline.
Definition corpus_prompt : string :=
  "Summarize across documents:" +:+ Py.newline.
Definition blank_line : string := Py.newline +:+ Py.newline.

(** The user contents of a trace of requests. *)
Definition user_contents (trace : list request) : list string :=
  rq ← trace; m ← messages rq;
  if String.eqb (role m) "user" then [content m] else [].

(** The world after one more [requests.post] call. *)
Definition record_post (rq : request) (w : world) : world :=
  {| posted := posted w ++ [rq]; opened := opened w;
     written := written w; documents_store := documents_store w |}.

(** The world after one more file was opened for reading. *)
Definition record_open (path : string) (w : world) : world :=
  {| posted := posted w; opened := opened w ++ [path];
     written := written w; documents_store := documents_store w |}.

(** A world in which nothing has happened yet. *)
Definition initial_world : world :=
  {| posted := []; opened := []; written := ∅; documents_store := ∅ |}.

(** An environment whose model always answers [answer], whose PDF
    decoder finds the page texts [pages] at every path, and whose file
    system accepts every write. *)
Definition fixed_env (answer : post_outcome) (pages : list string) : env :=
  {| AZURE_OPENAI_API_KEY := "key";
     AZURE_OPENAI_ENDPOINT := "https://example.openai.azure.com";
     AZURE_OPENAI_DEPLOYMENT_NAME := "gpt";
     requests_post := λ _ _, answer;
     fitz_open := λ _ _, Ok pages;
     docx_Document := λ _ _, Raise (OtherException "not a DOCX file");
     bs4_get_text := λ _ _, Raise (OtherException "not an HTML file");
     file_write := λ _ _ _, Written |}.

Definition success (content : string) : post_outcome :=
  Responded {| status_code := 200; text := ""; json_content := Ok content |}.

Definition failure (status : Z) (body : string) : post_outcome :=
  Responded {| status_code := status; text := body;
               json_content := Raise (OtherException "no choices") |}.

End Spec.

(** ** Reference notions for the further properties *)

Module Shape.

(** Every character of [s] satisfies [p]. *)
Fixpoint all_chars (p : ascii → bool) (s : string) : bool :=
  match s with
  | EmptyString => true
  | String c s' => p c && all_chars p s'
  end.

(** [s] occurs in [t] as a contiguous piece. *)
Definition occurs_in (s t : string) : Prop :=
  ∃ before after, t = before +:+ s +:+ after.

(** [s] has no whitespace at either end. *)
Definition trimmed (s : string) : Prop := Py.strip s = s.

(** Fewest and most characters a pattern can match ([None]: no limit). *)
Definition alt_min (alternatives : list string) : nat :=
  match alternatives with
  | [] => 0
  | a :: rest => foldr (λ b m, Nat.min (Py.len b) m) (Py.len a) rest
  end.

Definition alt_max (alternatives : list string) : nat :=
  foldr (λ b m, Nat.max (Py.len b) m) 0 alternatives.

Definition item_min (i : Re.item) : nat :=
  match i with
  | Re.Boundary => 0
  | Re.Lit _ => 1
  | Re.Class _ lo _ => lo
  | Re.Alt alternatives => alt_min alternatives
  end.

Definition item_max (i : Re.item) : option nat :=
  match i with
  | Re.Boundary => Some 0
  | Re.Lit _ => Some 1
  | Re.Class _ _ hi => hi
  | Re.Alt alternatives => Some (alt_max alternatives)
  end.

Fixpoint min_len (r : Re.regex) : nat :=
  match r with
  | [] => 0
  | i :: r' => item_min i + min_len r'
  end.

Fixpoint max_len (r : Re.regex) : option nat :=
  match r with
  | [] => Some 0
  | i :: r' =>
      match item_max i, max_len r' with
      | Some a, Some b => Some (a + b)
      | _, _ => None
      end
  end.

(** [c] is a character of [s]. *)
Fixpoint char_in (c : ascii) (s : string) : bool :=
  match s with
  | EmptyString => false
  | String d s' => Ascii.eqb c d || char_in c s'
  end.

(** Characters a pattern can consume. *)
Definition item_admits (i : Re.item) (c : ascii) : bool :=
  match i with
  | Re.Boundary => false
  | Re.Lit d => Ascii.eqb c d
  | Re.Class p _ _ => p c
  | Re.Alt alternatives => existsb (char_in c) alternatives
  end.

Definition admits (r : Re.regex) (c : ascii) : bool :=
  existsb (λ i, item_admits i c) r.

(** The two inner loops of [Re.match_here], named: the greedy count-down
    of a class and the ordered choice of an alternation, each followed by
    the rest of the pattern [continue]. *)
Fixpoint try_counts (continue : option ascii → string → option nat)
  (lo : nat) (prev : option ascii) (s : string) (n : nat) : option nat :=
  if n <? lo then None
  else
    let '(prev', s') := Re.advance n prev s in
    match continue prev' s' with
    | Some k => Some (n + k)
    | None =>
        match n with
        | O => None
        | S n' => try_counts continue lo prev s n'
        end
    end.

Fixpoint try_alternatives (continue : option ascii → string → option nat)
  (prev : option ascii) (s : string) (l : list string) : option nat :=
  match l with
  | [] => None
  | a :: l' =>
      if Py.startswith s a then
        let '(prev', s') := Re.advance (Py.len a) prev s in
        match continue prev' s' with
        | Some k => Some (Py.len a + k)
        | None => try_alternatives continue prev s l'
        end
      else try_alternatives continue prev s l'
  end.

(** The request the Q&A agent posts. *)
Definition qa_request (E : env) (question doc_text : string) : request :=
  {| url := completions_url E;
     api_key := AZURE_OPENAI_API_KEY E;
     messages :=
       [ {| role := "system";
            content := "You are a Q&A assistant. Answer based only on the provided document. If the answer is not in the document, say so clearly." |};
         {| role := "user";
            content := "Document:" +:+ Py.newline +:+ Py.slice_to 4000 doc_text
                       +:+ Py.newline +:+ Py.newline +:+ "Question: "
                       +:+ question |} ];
     max_tokens := 300;
     timeout := 30 |}.

(** The request the entity validation posts. *)
Definition entity_request (E : env) (text entities_text : string) : request :=
  {| url := completions_url E;
     api_key := AZURE_OPENAI_API_KEY E;
     messages :=
       [ {| role := "system";
            content := "You are an entity validation assistant. Check if the extracted entities are correct and relevant to the given text." |};
         {| role := "user";
            content := "Check if these entities are correct for the text:"
                       +:+ Py.newline +:+ Py.slice_to 3000 text +:+ Py.newline
                       +:+ "Entities: " +:+ entities_text |} ];
     max_tokens := 200;
     timeout := 30 |}.

(** [s.split("\n")]: the lines of [s]. *)
Fixpoint lines_from (cur : string) (s : string) : list string :=
  match s with
  | EmptyString => [cur]
  | String c s' =>
      if Ascii.eqb c (ascii_of_nat 10) then cur :: lines_from EmptyString s'
      else lines_from (Py.snoc cur c) s'
  end.

Definition lines (s : string) : list string := lines_from EmptyString s.

Definition no_newline (s : string) : bool :=
  all_chars (λ c, negb (Ascii.eqb c (ascii_of_nat 10))) s.

(** The characters of a file name that [sanitize_filename] keeps as they
    are: neither unsafe nor an underscore. *)
Fixpoint kept_chars (s : string) : string :=
  match s with
  | EmptyString => EmptyString
  | String c s' =>
      if Helpers.unsafe c || Helpers.is_underscore c then kept_chars s'
      else String c (kept_chars s')
  end.

(** No underscore is followed by another one. *)
Fixpoint no_double_underscore (s : string) : bool :=
  match s with
  | EmptyString => true
  | String c s' =>
      negb (Helpers.is_underscore c && Helpers.starts_with_underscore s')
      && no_double_underscore s'
  end.

(** Whether a token starting right after [s] would start a new token:
    [s] ends with whitespace, or is empty and [after_space] held before. *)
Fixpoint ends_after_space (after_space : bool) (s : string) : bool :=
  match s with
  | EmptyString => after_space
  | String c s' => ends_after_space (Py.isspace c) s'
  end.

(** A file name [sanitize_filename] has nothing to do on. *)
Definition clean (s : string) : Prop :=
  s ≠ EmptyString
  ∧ all_chars (λ c, negb (Helpers.unsafe c)) s = true
  ∧ Py.contains "__" s = false
  ∧ Py.startswith s "_" = false
  ∧ Py.endswith s "_" = false.

(** The store of a world with everything else left as it is. *)
Definition with_store (w : world) (st : gmap string document) : world :=
  {| posted := posted w; opened := opened w; written := written w;
     documents_store := st |}.

(** The record a document has after its summary was replaced. *)
Definition with_summary (d : document) (summary : string) : document :=
  {| doc_filename := doc_filename d; doc_text := doc_text d;
     doc_summary := summary; doc_entities := doc_entities d |}.

(** The path the upload route saves a file under. *)
Definition upload_path (doc_id filename : string) : string :=
  Documents.os_path_join Documents.UPLOAD_DIR (doc_id +:+ "_" +:+ filename).

(** An environment like [Spec.fixed_env] whose PDF decoder fails. *)
Definition broken_pdf_env (message : string) : env :=
  {| AZURE_OPENAI_API_KEY := "key";
     AZURE_OPENAI_ENDPOINT := "https://example.openai.azure.com";
     AZURE_OPENAI_DEPLOYMENT_NAME := "gpt";
     requests_post := λ _ _, Spec.success "A summary of six or more words.";
     fitz_open := λ _ _, Raise (OtherException message);
     docx_Document := λ _ _, Raise (OtherException "not a DOCX file");
     bs4_get_text := λ _ _, Raise (OtherException "not an HTML file");
     file_write := λ _ _ _, Written |}.

(** An environment like [Spec.fixed_env] in which the directory of every
    path with a further "/" after uploaded_docs/ is missing, so that
    opening such a path for writing raises [FileNotFoundError]. *)
Definition missing_directory_env : env :=
  {| AZURE_OPENAI_API_KEY := "key";
     AZURE_OPENAI_ENDPOINT := "https://example.openai.azure.com";
     AZURE_OPENAI_DEPLOYMENT_NAME := "gpt";
     requests_post := λ _ _, Spec.success "A summary of six or more words.";
     fitz_open := λ _ _, Ok ["Body"];
     docx_Document := λ _ _, Ok ["Body"];
     bs4_get_text := λ _ _, Ok "Body";
     file_write := λ _ path _,
       if Py.contains "/" (String.substring 14 (Py.len path) path)
       then WriteRaised
              (OtherException
                 ("[Errno 2] No such file or directory: '" +:+ path +:+ "'"))
              None
       else Written |}.

(** A world holding one document. *)
Definition one_document_world (doc_id : string) (d : document) : world :=
  with_store Spec.initial_world {[ doc_id := d ]}.

Definition sample_document : document :=
  {| doc_filename := "memo.pdf";
     doc_text := "Budget Review on 3/4/24";
     doc_summary := "The memo reviews the budget for the year.";
     doc_entities := Spec.entity_set ["Budget Review"] ["3/4/24"] [] |}.

End Shape.

(** Unfold the plumbing of [M]. *)
Ltac run_monad :=
  unfold try_except, mbind, M_bind, bind, mret, M_ret, ret, raise, lift,
    post, open_with, write_file, store.

(** * Properties *)

(** ** Strings *)

Section StringFacts.

Lemma nonempty_snoc cur c : Py.nonempty (Py.snoc cur c) = true.
Proof. by destruct cur. Qed.

Lemma nonempty_false s : Py.nonempty s = false ↔ s = "".
Proof. by destruct s. Qed.

Lemma nonempty_true s : Py.nonempty s = true ↔ s ≠ "".
Proof. by destruct s. Qed.

Lemma append_nil s : "" +:+ s = s.
Proof. reflexivity. Qed.

Lemma append_cons c s t : String c s +:+ t = String c (s +:+ t).
Proof. reflexivity. Qed.

Lemma append_empty_r s : s +:+ "" = s.
Proof.
  induction s as [|c s IH]; [done | by rewrite append_cons, IH].
Qed.

Lemma append_assoc s t u : (s +:+ t) +:+ u = s +:+ t +:+ u.
Proof.
  induction s as [|c s IH]; [done | by rewrite !append_cons, IH].
Qed.

Lemma snoc_append cur c s : Py.snoc cur c +:+ s = cur +:+ String c s.
Proof. unfold Py.snoc. by rewrite append_assoc. Qed.

(** The number of tokens [split] returns is the number of token starts. *)
Lemma split_from_length cur s :
  length (Py.split_from cur s)
  = Spec.token_starts (negb (Py.nonempty cur)) s
    + (if Py.nonempty cur then 1 else 0).
Proof.
  revert cur. induction s as [|c s IH]; intros cur; simpl.
  - by destruct (Py.nonempty cur).
  - destruct (Py.isspace c) eqn:Hc; simpl.
    + destruct (Py.nonempty cur); simpl; rewrite IH; simpl; lia.
    + rewrite IH, nonempty_snoc. simpl.
      destruct (Py.nonempty cur); simpl; lia.
Qed.

Lemma split_length s : length (Py.split s) = Spec.token_count s.
Proof.
  unfold Py.split, Spec.token_count.
  rewrite split_from_length. simpl. lia.
Qed.

(** Tokens are non-empty and free of whitespace. *)
Lemma split_from_tokens cur s :
  Spec.without_space cur = cur →
  Forall (λ t, t ≠ "" ∧ Spec.without_space t = t) (Py.split_from cur s).
Proof.
  revert cur. induction s as [|c s IH]; intros cur Hcur; simpl.
  - destruct (Py.nonempty cur) eqn:Hne; [|constructor].
    constructor; [|constructor]. split; [by apply nonempty_true | done].
  - destruct (Py.isspace c) eqn:Hc.
    + destruct (Py.nonempty cur) eqn:Hne; [|by apply IH].
      constructor; [|by apply IH]. split; [by apply nonempty_true | done].
    + apply IH. unfold Py.snoc. clear IH.
      induction cur as [|d cur IHc];
        rewrite ?append_nil, ?append_cons; simpl in *; [by rewrite Hc|].
      destruct (Py.isspace d) eqn:Hd.
      * exfalso. assert (Hlen : String.length (Spec.without_space cur)
                                ≤ String.length cur).
        { clear. induction cur as [|e cur IH]; simpl; [lia|].
          destruct (Py.isspace e); simpl; lia. }
        rewrite Hcur in Hlen. simpl in Hlen. lia.
      * f_equal. apply IHc. congruence.
Qed.

Lemma split_tokens s :
  Forall (λ t, t ≠ "" ∧ Spec.without_space t = t) (Py.split s).
Proof. by apply split_from_tokens. Qed.

(** Put end to end, the tokens are the text without its whitespace. *)
Lemma split_from_concat cur s :
  Spec.concat (Py.split_from cur s) = cur +:+ Spec.without_space s.
Proof.
  revert cur. induction s as [|c s IH]; intros cur; simpl.
  - destruct cur; simpl; by rewrite ?append_empty_r.
  - destruct (Py.isspace c).
    + destruct cur; simpl; by rewrite IH, ?append_nil.
    + by rewrite IH, snoc_append.
Qed.

Lemma split_concat s : Spec.concat (Py.split s) = Spec.without_space s.
Proof. apply split_from_concat. Qed.

End StringFacts.

(** ** C2: the summary check *)

(** C2. [validate_summary text] is true exactly when [text] is a non-empty
    string with more than 5 whitespace-delimited tokens; 5 tokens give
    false, 6 give true, and the empty string and [None] give false. *)
Theorem validate_summary_more_than_five_tokens :
  (∀ text : option string,
     ValidationAgent.validate_summary text = true
     ↔ ∃ s, text = Some s ∧ s ≠ "" ∧ 5 < Spec.token_count s)
  ∧ (∀ s, Spec.token_count s = 5 →
          ValidationAgent.validate_summary (Some s) = false)
  ∧ (∀ s, Spec.token_count s = 6 →
          ValidationAgent.validate_summary (Some s) = true)
  ∧ ValidationAgent.validate_summary (Some "") = false
  ∧ ValidationAgent.validate_summary None = false.
Proof.
  assert (Hiff : ∀ text : option string,
     ValidationAgent.validate_summary text = true
     ↔ ∃ s, text = Some s ∧ s ≠ "" ∧ 5 < Spec.token_count s).
  { intros [s|]; simpl.
    - rewrite andb_true_iff, Nat.ltb_lt, split_length, nonempty_true.
      split.
      + intros [Hne Hlt]. by exists s.
      + intros (s' & [= <-] & Hne & Hlt). done.
    - split; [done | by intros (s & ? & _)]. }
  split; [exact Hiff|].
  split; [|split; [|split]].
  - intros s H5. apply not_true_is_false. intros Ht.
    apply Hiff in Ht as (s' & [= <-] & _ & Hlt). lia.
  - intros s H6. apply Hiff. exists s. split; [done|]. split; [|lia].
    intros ->. discriminate H6.
  - reflexivity.
  - reflexivity.
Qed.

Lemma validate_summary_more_than_five_tokens_witness :
  Spec.token_count "This summary has exactly five" = 5
  ∧ ValidationAgent.validate_summary (Some "This summary has exactly five") = false
  ∧ Spec.token_count "This summary has exactly six words" = 6
  ∧ ValidationAgent.validate_summary (Some "This summary has exactly six words") = true.
Proof.
  destruct validate_summary_more_than_five_tokens as (_ & H5 & H6 & _).
  split; [reflexivity|]. split; [apply H5; reflexivity|].
  split; [reflexivity|]. apply H6; reflexivity.
Defined.

(** ** C9, C10: the entity check *)

Section EntityCheck.

(** The check passes exactly when some value of the mapping has positive
    length, whatever the keys are. *)
Lemma validate_entities_some_value (m : gmap string pyval) :
  ValidationAgent.validate_entities m = true
  ↔ ∃ k v, m !! k = Some v ∧ 0 < py_len v.
Proof.
  unfold ValidationAgent.validate_entities.
  rewrite existsb_exists. split.
  - intros (v & Hin & Hlen).
    apply list_elem_of_In, list_elem_of_fmap in Hin as ([k v'] & -> & Hkv).
    apply elem_of_map_to_list in Hkv.
    exists k, v'. split; [done | by apply Nat.ltb_lt].
  - intros (k & v & Hkv & Hlen). exists v. split; [|by apply Nat.ltb_lt].
    apply list_elem_of_In, list_elem_of_fmap. exists (k, v).
    split; [done | by apply elem_of_map_to_list].
Qed.

Lemma entity_set_lookup names dates orgs k v :
  Spec.entity_set names dates orgs !! k = Some v
  ↔ (k = "names" ∧ v = VList names)
    ∨ (k = "dates" ∧ v = VList dates)
    ∨ (k = "organizations" ∧ v = VList orgs).
Proof.
  unfold Spec.entity_set. split.
  - intros H.
    destruct (decide (k = "names")) as [->|?]; [simplify_map_eq; auto|].
    destruct (decide (k = "dates")) as [->|?]; [simplify_map_eq; auto|].
    destruct (decide (k = "organizations")) as [->|?];
      [simplify_map_eq; auto|].
    by simplify_map_eq.
  - intros [[-> ->]|[[-> ->]|[-> ->]]]; by simplify_map_eq.
Qed.

End EntityCheck.

(** C9. On a three-category entity set, [validate_entities] is true exactly
    when one of names, dates, organizations is non-empty; with all three
    empty it is false. *)
Theorem validate_entities_three_categories :
  (∀ names dates orgs : list string,
     ValidationAgent.validate_entities (Spec.entity_set names dates orgs) = true
     ↔ names ≠ [] ∨ dates ≠ [] ∨ orgs ≠ [])
  ∧ ValidationAgent.validate_entities (Spec.entity_set [] [] []) = false.
Proof.
  assert (Hiff : ∀ names dates orgs : list string,
     ValidationAgent.validate_entities (Spec.entity_set names dates orgs) = true
     ↔ names ≠ [] ∨ dates ≠ [] ∨ orgs ≠ []).
  { intros names dates orgs. rewrite validate_entities_some_value. split.
    - intros (k & v & Hkv & Hlen).
      apply entity_set_lookup in Hkv as [[_ ->]|[[_ ->]|[_ ->]]];
        simpl in Hlen; [left | right; left | right; right];
        intros ->; simpl in Hlen; lia.
    - assert (Hpos : ∀ l : list string, l ≠ [] → 0 < py_len (VList l)).
      { intros [|x l] Hl; [done | simpl; lia]. }
      intros [H|[H|H]].
      + exists "names", (VList names).
        split; [apply entity_set_lookup; auto | by apply Hpos].
      + exists "dates", (VList dates).
        split; [apply entity_set_lookup; auto | by apply Hpos].
      + exists "organizations", (VList orgs).
        split; [apply entity_set_lookup; auto | by apply Hpos]. }
  split; [exact Hiff|].
  apply not_true_is_false. intros Ht.
  apply Hiff in Ht. destruct Ht as [H|[H|H]]; by apply H.
Qed.

(** C10. The rollback error record passes [validate_entities]: the check
    only asks that some value of the mapping it is given has positive
    length, and the rollback message is such a value. *)
Theorem validate_entities_accepts_rollback_record :
  ValidationAgent.validate_entities Spec.rollback_record = true
  ∧ Spec.rollback_record
    = {[ "error" := VStr ValidationAgent.rollback_entities ]}
  ∧ (∀ m : gmap string pyval,
       ValidationAgent.validate_entities m = true
       ↔ ∃ k v, m !! k = Some v ∧ 0 < py_len v).
Proof.
  split; [|split; [reflexivity | exact validate_entities_some_value]].
  apply validate_entities_some_value.
  exists "error", (VStr "Entities rolled back due to low confidence.").
  split; [by unfold Spec.rollback_record; simplify_map_eq | simpl; lia].
Qed.

(** ** C5: the Q&A agent's input checks *)

Section Strip.

Lemma rstrip_empty s : Py.rstrip s = "" ↔ Py.all_space s = true.
Proof.
  induction s as [|c s IH]; simpl; [done|].
  destruct (Py.isspace c); simpl; [|done].
  destruct (Py.rstrip s) eqn:Hr; simpl.
  - split; [intros _; by apply IH | done].
  - split; [done|]. intros Hs. by apply IH in Hs.
Qed.

Lemma lstrip_all_space s : Py.all_space s = true → Py.lstrip s = "".
Proof.
  induction s as [|c s IH]; simpl; [done|].
  destruct (Py.isspace c); simpl; [exact IH | done].
Qed.

Lemma lstrip_keeps_nonspace s :
  Py.all_space s = false → Py.all_space (Py.lstrip s) = false.
Proof.
  induction s as [|c s IH]; simpl; [done|].
  destruct (Py.isspace c) eqn:Hc; simpl; [exact IH | by rewrite Hc].
Qed.

(** [s.strip()] is empty exactly when [s] is empty or whitespace-only. *)
Lemma strip_empty s : Py.strip s = "" ↔ Py.all_space s = true.
Proof.
  unfold Py.strip. split.
  - intros H. apply rstrip_empty in H.
    destruct (Py.all_space s) eqn:Hs; [done|].
    apply lstrip_keeps_nonspace in Hs. congruence.
  - intros H. by rewrite lstrip_all_space.
Qed.

Lemma strip_nonempty s :
  Py.nonempty (Py.strip s) = negb (Py.all_space s).
Proof.
  destruct (Py.all_space s) eqn:Hs.
  - apply strip_empty in Hs. by rewrite Hs.
  - destruct (Py.strip s) eqn:Hstrip; [|done].
    apply strip_empty in Hstrip. congruence.
Qed.

End Strip.

(** C5. A question that is empty or whitespace-only gets
    "No question provided." whatever the document text is, and a question
    that is not (one with some non-whitespace character) put to an empty
    or whitespace-only document gets "No document content available."; in
    both cases the world is left as it was, so that nothing is posted to
    the model. *)
Theorem ask_rejects_blank_inputs (E : env) (question doc_text : string)
    (w : world) :
  (Py.all_space question = true →
     QAAgent.ask E question doc_text w = (Ok "No question provided.", w))
  ∧ (Py.all_space question = false → Py.all_space doc_text = true →
     QAAgent.ask E question doc_text w
     = (Ok "No document content available.", w)).
Proof.
  unfold QAAgent.ask. rewrite !strip_nonempty. split.
  - intros ->. reflexivity.
  - intros -> ->. reflexivity.
Qed.

Lemma ask_rejects_blank_inputs_witness :
  let E := Spec.fixed_env (Spec.success "An answer.") [] in
  QAAgent.ask E "   " "Some document." Spec.initial_world
  = (Ok "No question provided.", Spec.initial_world)
  ∧ QAAgent.ask E "Who?" "  " Spec.initial_world
    = (Ok "No document content available.", Spec.initial_world).
Proof.
  intros E. split.
  - apply (ask_rejects_blank_inputs E "   " "Some document."
             Spec.initial_world). reflexivity.
  - apply (ask_rejects_blank_inputs E "Who?" "  " Spec.initial_world);
      reflexivity.
Defined.


(** ** C6: unsupported formats *)

Section Extension.

Lemma eqb_eq_string (s t : string) : String.eqb s t = true ↔ s = t.
Proof. apply String.eqb_eq. Qed.

(** [s.endswith(suffix)] holds exactly when [s] is some prefix followed by
    [suffix]. *)
Lemma endswith_spec s suffix :
  Py.endswith s suffix = true ↔ ∃ p, s = p +:+ suffix.
Proof.
  induction s as [|c s IH]; cbn [Py.endswith].
  - destruct (String.eqb "" suffix) eqn:He.
    + apply eqb_eq_string in He as <-. split; [by exists "" | done].
    + split; [done|]. intros ([|d p] & Hp).
      * rewrite append_nil in Hp. subst. by rewrite String.eqb_refl in He.
      * by rewrite append_cons in Hp.
  - destruct (String.eqb (String c s) suffix) eqn:He.
    + apply eqb_eq_string in He as <-. split; [by exists "" | done].
    + rewrite IH. split.
      * intros (p & ->). by exists (String c p).
      * intros ([|d p] & Hp).
        -- rewrite append_nil in Hp. subst. by rewrite String.eqb_refl in He.
        -- rewrite append_cons in Hp. injection Hp as -> ->. by exists p.
Qed.

(** A string without "." has no extension. *)
Lemma extension_no_dot t :
  Py.contains "." t = false → Spec.extension t = "".
Proof.
  induction t as [|c t IH];
    cbn [Py.contains Py.startswith Spec.extension andb orb]; [done|].
  destruct (Ascii.eqb "." c) eqn:Hc;
    cbn [Py.contains Py.startswith andb orb]; [by destruct t|].
  intros Ht. rewrite (IH Ht). cbn [Py.nonempty].
  by rewrite Ascii.eqb_sym, Hc.
Qed.

(** A path that ends with a dotted suffix has that suffix as extension. *)
Lemma endswith_extension s t :
  Py.contains "." t = false →
  Py.endswith s (String "." t) = true → Spec.extension s = String "." t.
Proof.
  intros Ht. induction s as [|c s IH]; cbn [Py.endswith Spec.extension];
    [done|].
  destruct (String.eqb (String c s) (String "." t)) eqn:He.
  - intros _. apply eqb_eq_string in He. injection He as -> ->.
    by rewrite (extension_no_dot _ Ht).
  - intros Hs. by rewrite (IH Hs).
Qed.

Lemma supported_extension s :
  Py.endswith_any s Spec.supported_extensions = true →
  Spec.extension s ∈ Spec.supported_extensions.
Proof.
  unfold Py.endswith_any, Spec.supported_extensions. simpl.
  rewrite orb_false_r, !orb_true_iff.
  intros [H|[H|H]]; apply endswith_extension in H; try done;
    rewrite H; set_solver.
Qed.

End Extension.

(** C6. A path whose extension is none of .pdf, .docx, .html makes [parse]
    raise [UnsupportedFileFormatError] with the world untouched (no file is
    opened), and the upload route rejects such a file name the same way
    before writing or parsing; this exception is never a
    [DocumentParsingError]. *)
Theorem parse_rejects_unsupported_extension (E : env) (file_path : string)
    (w : world) :
  Spec.extension file_path ∉ Spec.supported_extensions →
  ParserAgent.parse E file_path w
  = (Raise (UnsupportedFileFormatError ("Unsupported file: " +:+ file_path)), w)
  ∧ (∀ data doc_id,
       Documents.upload_document E
         {| Documents.filename := file_path; Documents.data := data |} doc_id w
       = (Raise (UnsupportedFileFormatError "Unsupported file format"), w))
  ∧ (∀ m m', UnsupportedFileFormatError m ≠ DocumentParsingError m').
Proof.
  intros Hext.
  assert (Hany : Py.endswith_any file_path Spec.supported_extensions = false).
  { apply not_true_is_false. intros H. by apply supported_extension in H. }
  pose proof Hany as Hany'.
  unfold Py.endswith_any, Spec.supported_extensions in Hany'. simpl in Hany'.
  rewrite orb_false_r in Hany'.
  apply orb_false_elim in Hany' as [Hpdf Hrest].
  apply orb_false_elim in Hrest as [Hdocx Hhtml].
  split; [|split].
  - unfold ParserAgent.parse. by rewrite Hpdf, Hdocx, Hhtml.
  - intros data doc_id. unfold Documents.upload_document.
    cbn [Documents.filename].
    unfold Spec.supported_extensions in Hany. by rewrite Hany.
  - discriminate.
Qed.

Lemma parse_rejects_unsupported_extension_witness :
  let E := Spec.fixed_env (Spec.success "ok") ["page"] in
  ParserAgent.parse E "test.txt" Spec.initial_world
  = (Raise (UnsupportedFileFormatError "Unsupported file: test.txt"),
     Spec.initial_world).
Proof.
  intros E.
  apply (parse_rejects_unsupported_extension E "test.txt" Spec.initial_world).
  intros H. apply list_elem_of_In in H. vm_compute in H.
  destruct H as [H|[H|[H|[]]]]; discriminate H.
Defined.

(** ** C1, C7: the summarizer's single call path *)

Section Summarizer.

Context (E : env).

(** Every call posts exactly one request, whose user content is the first
    4000 characters of what [_call_llm] was given. *)
Lemma call_llm_world user_content w :
  (SummarizerAgent._call_llm E user_content w).2
  = Spec.record_post
      (Spec.summarizer_request E (Py.slice_to 4000 user_content)) w.
Proof.
  unfold SummarizerAgent._call_llm. run_monad.
  change (requests_post E _ _) with
    (requests_post E (posted w)
       (Spec.summarizer_request E (Py.slice_to 4000 user_content))).
  destruct (requests_post E _ _) as [r|e]; simpl.
  - destruct (status_code r =? 200)%Z; simpl; [|done].
    destruct (json_content r) as [c|e]; simpl; [done|]. by destruct e.
  - by destruct e.
Qed.

(** The call hands back a string, whatever the model does. *)
Lemma call_llm_returns user_content w :
  ∃ s, (SummarizerAgent._call_llm E user_content w).1 = Ok s.
Proof.
  unfold SummarizerAgent._call_llm. run_monad.
  destruct (requests_post E _ _) as [r|e]; simpl.
  - destruct (status_code r =? 200)%Z; simpl; [|by eexists].
    destruct (json_content r) as [c|e]; simpl; [by eexists|].
    destruct e; by eexists.
  - destruct e; by eexists.
Qed.

Lemma call_llm_http_failure user_content w r :
  requests_post E (posted w)
    (Spec.summarizer_request E (Py.slice_to 4000 user_content))
  = Responded r →
  status_code r ≠ 200%Z →
  (SummarizerAgent._call_llm E user_content w).1
  = Ok ("Summarization failed: " +:+ text r).
Proof.
  intros Hpost Hstatus.
  unfold SummarizerAgent._call_llm. run_monad.
  change (requests_post E _ _) with
    (requests_post E (posted w)
       (Spec.summarizer_request E (Py.slice_to 4000 user_content))).
  rewrite Hpost.
  destruct (status_code r =? 200)%Z eqn:H200; [|done].
  by apply Z.eqb_eq in H200.
Qed.

End Summarizer.

Section Slices.

Lemma slice_to_append p n t :
  Py.slice_to (Py.len p + n) (p +:+ t) = p +:+ Py.slice_to n t.
Proof.
  induction p as [|c p IH]; [done|].
  rewrite !append_cons. simpl. by rewrite <- IH.
Qed.

Lemma slice_to_length n s : Py.len (Py.slice_to n s) ≤ n.
Proof.
  unfold Py.len.
  revert s. induction n as [|n IH]; intros [|c s]; simpl; try lia.
  specialize (IH s). lia.
Qed.

Lemma append_length s t : Py.len (s +:+ t) = Py.len s + Py.len t.
Proof.
  unfold Py.len. induction s as [|c s IH]; [done|].
  rewrite append_cons. simpl. by rewrite IH.
Qed.

Lemma startswith_refl s : Py.startswith s s = true.
Proof.
  induction s as [|c s IH]; simpl; [done|]. by rewrite Ascii.eqb_refl.
Qed.

Lemma contains_refl s : Py.contains s s = true.
Proof. destruct s; simpl; [done|]. by rewrite Ascii.eqb_refl, startswith_refl. Qed.

End Slices.

(** C1 as amended. [summarize_corpus] joins the documents with a blank
    line, and each of the three entry points posts exactly one request whose
    user content is the first 4000 characters of its instruction line
    followed by the text (the joined text for a corpus): the text itself
    reaches the model cut to 3976, 3951 and 3972 characters. *)
Theorem summarizer_sends_first_4000_of_prompt (E : env)
    (texts : list string) (text : string) (w : world) :
  (SummarizerAgent.summarize_corpus E texts w).2
  = Spec.record_post
      (Spec.summarizer_request E
         (Py.slice_to 4000
            (Spec.corpus_prompt +:+ Py.join Spec.blank_line texts))) w
  ∧ (SummarizerAgent.summarize_section E text w).2
    = Spec.record_post
        (Spec.summarizer_request E
           (Py.slice_to 4000 (Spec.section_prompt +:+ text))) w
  ∧ (SummarizerAgent.summarize_document E text w).2
    = Spec.record_post
        (Spec.summarizer_request E
           (Py.slice_to 4000 (Spec.document_prompt +:+ text))) w
  ∧ Py.slice_to 4000 (Spec.corpus_prompt +:+ Py.join Spec.blank_line texts)
    = Spec.corpus_prompt +:+ Py.slice_to 3972 (Py.join Spec.blank_line texts)
  ∧ Py.slice_to 4000 (Spec.section_prompt +:+ text)
    = Spec.section_prompt +:+ Py.slice_to 3976 text
  ∧ Py.slice_to 4000 (Spec.document_prompt +:+ text)
    = Spec.document_prompt +:+ Py.slice_to 3951 text.
Proof.
  unfold SummarizerAgent.summarize_corpus, SummarizerAgent.summarize_section,
    SummarizerAgent.summarize_document.
  rewrite !call_llm_world, <- !append_assoc.
  split; [reflexivity|]. split; [reflexivity|]. split; [reflexivity|].
  split; [|split].
  - change 4000 with (Py.len Spec.corpus_prompt + 3972).
    apply slice_to_append.
  - change 4000 with (Py.len Spec.section_prompt + 3976).
    apply slice_to_append.
  - change 4000 with (Py.len Spec.document_prompt + 3951).
    apply slice_to_append.
Qed.

(** C1 as stated fails: a corpus whose joined text is longer than the
    budget is cut like any other input (the second document never reaches
    the model), and a section of 3977 characters, shorter than 4000, is
    cut as well. *)
Lemma summarize_corpus_truncation_counterexample :
  let E := Spec.fixed_env (Spec.success "A summary.") [] in
  let texts := [Py.repeat_char "a" 4000; "closing remarks"] in
  let sent_corpus :=
    Spec.user_contents
      (posted (SummarizerAgent.summarize_corpus E texts Spec.initial_world).2) in
  let section := Py.repeat_char "a" 3976 +:+ "b" in
  let sent_section :=
    Spec.user_contents
      (posted (SummarizerAgent.summarize_section E section Spec.initial_world).2) in
  sent_corpus = [Spec.corpus_prompt +:+ Py.repeat_char "a" 3972]
  ∧ existsb (Py.contains "closing remarks") sent_corpus = false
  ∧ sent_corpus ≠ [Spec.corpus_prompt +:+ Py.join Spec.blank_line texts]
  ∧ sent_section = [Spec.section_prompt +:+ Py.repeat_char "a" 3976]
  ∧ Py.slice_to 4000 section = section
  ∧ existsb (Py.contains "b") sent_section = false
  ∧ sent_section ≠ [Spec.section_prompt +:+ Py.slice_to 4000 section].
Proof.
  intros E texts sent_corpus section sent_section.
  assert (Hc : sent_corpus = [Spec.corpus_prompt +:+ Py.repeat_char "a" 3972])
    by (vm_compute; reflexivity).
  assert (Hs : sent_section = [Spec.section_prompt +:+ Py.repeat_char "a" 3976])
    by (vm_compute; reflexivity).
  assert (Hcc : existsb (Py.contains "closing remarks") sent_corpus = false)
    by (vm_compute; reflexivity).
  assert (Hsc : existsb (Py.contains "b") sent_section = false)
    by (vm_compute; reflexivity).
  split; [exact Hc|]. split; [exact Hcc|]. split.
  { intros H. rewrite H in Hcc. vm_compute in Hcc. discriminate Hcc. }
  split; [exact Hs|]. split; [vm_compute; reflexivity|].
  split; [exact Hsc|].
  intros H. rewrite H in Hsc. vm_compute in Hsc. discriminate Hsc.
Qed.

(** C7. When the model endpoint answers the summarizer's request with a
    status other than 200, [_call_llm] (and so each summarize entry point)
    returns, as an ordinary value, the string "Summarization failed: "
    followed by the raw response body; with status 500 and body
    "Internal server error" the returned string contains
    "Summarization failed: Internal server error". *)
Theorem summarizer_reports_http_failure (E : env) (user_content : string)
    (w : world) (r : response) :
  requests_post E (posted w)
    (Spec.summarizer_request E (Py.slice_to 4000 user_content))
  = Responded r →
  status_code r ≠ 200%Z →
  ∃ reply,
    (SummarizerAgent._call_llm E user_content w).1 = Ok reply
    ∧ reply = "Summarization failed: " +:+ text r
    ∧ Py.contains ("Summarization failed: " +:+ text r) reply = true
    ∧ (status_code r = 500%Z → text r = "Internal server error" →
       Py.contains "Summarization failed: Internal server error" reply = true).
Proof.
  intros Hpost Hstatus. exists ("Summarization failed: " +:+ text r).
  split; [by apply call_llm_http_failure|]. split; [done|].
  split; [apply contains_refl|].
  intros _ ->. reflexivity.
Qed.

Lemma summarizer_reports_http_failure_witness :
  let E := Spec.fixed_env (Spec.failure 500 "Internal server error") [] in
  ∃ reply,
    (SummarizerAgent.summarize_document E "Quarterly report."
       Spec.initial_world).1 = Ok reply
    ∧ reply = "Summarization failed: Internal server error"
    ∧ Py.contains "Summarization failed: Internal server error" reply = true.
Proof.
  intros E.
  destruct (summarizer_reports_http_failure E
              (Spec.document_prompt +:+ "Quarterly report.")
              Spec.initial_world
              {| status_code := 500; text := "Internal server error";
                 json_content := Raise (OtherException "no choices") |})
    as (reply & Hrun & Heq & _ & H500).
  - reflexivity.
  - simpl. lia.
  - exists reply. split; [exact Hrun|]. split; [exact Heq|].
    apply H500; reflexivity.
Defined.

(** ** C4: PDF pages *)

Section Pdf.

Lemma lstrip_append s u :
  Py.lstrip (s +:+ u)
  = if Py.all_space s then Py.lstrip u else Py.lstrip s +:+ u.
Proof.
  induction s as [|c s IH]; [done|].
  rewrite append_cons. cbn [Py.lstrip Py.all_space].
  destruct (Py.isspace c); cbn [andb]; [exact IH | by rewrite append_cons].
Qed.

Lemma rstrip_append_space t c :
  Py.isspace c = true → Py.rstrip (t +:+ String c "") = Py.rstrip t.
Proof.
  intros Hc. induction t as [|d t IH].
  - rewrite append_nil. cbn [Py.rstrip]. by rewrite Hc.
  - rewrite append_cons. cbn [Py.rstrip]. by rewrite IH.
Qed.

(** A trailing newline does not survive [strip]. *)
Lemma strip_append_newline s : Py.strip (s +:+ Py.newline) = Py.strip s.
Proof.
  unfold Py.strip. rewrite lstrip_append.
  destruct (Py.all_space s) eqn:Hs.
  - by rewrite (lstrip_all_space _ Hs).
  - by apply rstrip_append_space.
Qed.

(** The loop of [_parse_pdf] appends each page and a newline. *)
Lemma page_loop pages acc :
  fold_left (λ text page, text +:+ (page +:+ Py.newline)) pages acc
  = acc +:+ Spec.concat ((λ page, page +:+ Py.newline) <$> pages).
Proof.
  revert acc. induction pages as [|p pages IH]; intros acc; simpl.
  - by rewrite append_empty_r.
  - by rewrite IH, append_assoc.
Qed.

Lemma pages_join pages :
  pages ≠ [] →
  Spec.concat ((λ page, page +:+ Py.newline) <$> pages)
  = Py.join Py.newline pages +:+ Py.newline.
Proof.
  induction pages as [|p pages IH]; [done|]. intros _.
  destruct pages as [|q pages].
  - simpl. by rewrite append_empty_r.
  - change (Py.join Py.newline (p :: q :: pages))
      with (p +:+ Py.newline +:+ Py.join Py.newline (q :: pages)).
    rewrite fmap_cons. cbn [Spec.concat]. rewrite IH by done.
    by rewrite !append_assoc.
Qed.

Lemma parse_pdf_text pages :
  Py.strip (fold_left (λ text page, text +:+ (page +:+ Py.newline)) pages "")
  = Py.strip (Py.join Py.newline pages).
Proof.
  rewrite page_loop, append_nil.
  destruct pages as [|p pages]; [done|].
  by rewrite pages_join, strip_append_newline.
Qed.

End Pdf.

(** What [parse] computes for a path ending in .pdf whose pages have the
    texts [pages]: it opens the file once and returns the page texts joined
    in page order by newlines, with the whitespace at both ends of the
    whole removed by the final [text.strip()]. *)
Theorem parse_pdf_joins_pages_and_strips (E : env) (file_path : string)
    (w : world) (pages : list string) :
  Py.endswith file_path ".pdf" = true →
  fitz_open E (written w) file_path = Ok pages →
  ParserAgent.parse E file_path w
  = (Ok (Py.strip (Py.join Py.newline pages)), Spec.record_open file_path w).
Proof.
  intros Hpdf Hopen.
  unfold ParserAgent.parse. rewrite Hpdf.
  unfold ParserAgent._parse_pdf. run_monad. rewrite Hopen.
  by rewrite parse_pdf_text.
Qed.

Lemma parse_pdf_joins_pages_and_strips_witness :
  let E := Spec.fixed_env (Spec.success "ok") ["Title"; ""; "Body"] in
  ParserAgent.parse E "report.pdf" Spec.initial_world
  = (Ok ("Title" +:+ Py.newline +:+ Py.newline +:+ "Body"),
     Spec.record_open "report.pdf" Spec.initial_world).
Proof.
  intros E.
  apply (parse_pdf_joins_pages_and_strips E "report.pdf" Spec.initial_world
           ["Title"; ""; "Body"]); reflexivity.
Defined.

(** C4. The code at the failing inputs: for a PDF whose first page has no
    text and whose second page reads Body, and for one with the pages the
    other way round, [parse] returns Body alone. The text-less page leaves
    no empty line, against the claim and against the note in the docstring
    of [_parse_pdf] that empty pages are included as newlines: the final
    [text.strip()] removes the newline the loop had added for it. *)
Lemma parse_pdf_loses_empty_page_lines :
  let leading := Spec.fixed_env (Spec.success "ok") [""; "Body"] in
  let trailing := Spec.fixed_env (Spec.success "ok") ["Body"; ""] in
  (ParserAgent.parse leading "scan.pdf" Spec.initial_world).1 = Ok "Body"
  ∧ (ParserAgent.parse trailing "scan.pdf" Spec.initial_world).1 = Ok "Body"
  ∧ Py.contains Py.newline "Body" = false
  ∧ Py.join Py.newline [""; "Body"] = Py.newline +:+ "Body"
  ∧ (ParserAgent.parse leading "scan.pdf" Spec.initial_world).1
    ≠ Ok (Py.join Py.newline [""; "Body"])
  ∧ (ParserAgent.parse trailing "scan.pdf" Spec.initial_world).1
    ≠ Ok (Py.join Py.newline ["Body"; ""]).
Proof.
  intros leading trailing.
  split; [reflexivity|]. split; [reflexivity|]. split; [reflexivity|].
  split; [reflexivity|]. split; vm_compute; discriminate.
Qed.

(** ** C8: entities of the sample sentence *)

(** [list(set(xs))] has the elements of [xs], each once. *)
Lemma list_of_set_elem x xs : x ∈ EntityAgent.list_of_set xs ↔ x ∈ xs.
Proof.
  unfold EntityAgent.list_of_set.
  by rewrite (elem_of_elements (C:=gset string)), elem_of_list_to_set.
Qed.

Lemma list_of_set_NoDup xs : NoDup (EntityAgent.list_of_set xs).
Proof.
  unfold EntityAgent.list_of_set. apply (NoDup_elements (C:=gset string)).
Qed.

(** C8. On "Alice Johnson met on 12/12/2024 at OpenAI University." the
    extractor returns a record whose names contain "Alice Johnson", whose
    dates contain "12/12/2024" and whose organizations have an entry
    containing "University". *)
Theorem extract_sample_sentence :
  let entities :=
    EntityAgent.extract
      "Alice Johnson met on 12/12/2024 at OpenAI University." in
  ∃ names dates organizations : list string,
    entities !! "names" = Some (VList names)
    ∧ entities !! "dates" = Some (VList dates)
    ∧ entities !! "organizations" = Some (VList organizations)
    ∧ dom entities = {[ "names"; "dates"; "organizations" ]}
    ∧ "Alice Johnson" ∈ names
    ∧ "12/12/2024" ∈ dates
    ∧ ∃ o, o ∈ organizations ∧ Py.contains "University" o = true.
Proof.
  intros entities. subst entities. unfold EntityAgent.extract.
  set (text := "Alice Johnson met on 12/12/2024 at OpenAI University.").
  assert (Hn : Re.findall EntityAgent.name_pattern text = ["Alice Johnson"])
    by (vm_compute; reflexivity).
  assert (Hd : Re.findall EntityAgent.date_pattern text = ["12/12/2024"])
    by (vm_compute; reflexivity).
  assert (Ho : Re.findall EntityAgent.org_pattern text = ["OpenAI University"])
    by (vm_compute; reflexivity).
  rewrite Hn, Hd, Ho.
  eexists _, _, _.
  split; [by simplify_map_eq|]. split; [by simplify_map_eq|].
  split; [by simplify_map_eq|].
  split; [rewrite !dom_insert_L, dom_singleton_L; set_solver|].
  split; [apply list_of_set_elem; constructor|].
  split; [apply list_of_set_elem; constructor|].
  exists "OpenAI University".
  split; [apply list_of_set_elem; constructor | reflexivity].
Qed.

(** ** C3: rollback in the upload route *)

Section Upload.

Context (E : env).

(** The path the route saves the upload under. *)
Lemma upload_document_run file doc_id w w0 text w1 summary w2 :
  let file_path :=
    Documents.os_path_join Documents.UPLOAD_DIR
      (doc_id +:+ "_" +:+ Documents.filename file) in
  let kept_summary :=
    if ValidationAgent.validate_summary (Some summary) then summary
    else ValidationAgent.rollback_summary in
  let kept_entities :=
    if ValidationAgent.validate_entities (EntityAgent.extract text)
    then EntityAgent.extract text
    else {[ "error" := VStr ValidationAgent.rollback_entities ]} in
  Py.endswith_any (Documents.filename file) [".pdf"; ".docx"; ".html"] = true →
  write_file E file_path (Documents.data file) w = (Ok tt, w0) →
  ParserAgent.parse E file_path w0 = (Ok text, w1) →
  SummarizerAgent.summarize_document E text w1 = (Ok summary, w2) →
  Documents.upload_document E file doc_id w
  = (Ok {| Documents.r_doc_id := doc_id;
           Documents.r_filename := Documents.filename file;
           Documents.r_summary := kept_summary;
           Documents.r_entities := kept_entities |},
     {| posted := posted w2; opened := opened w2; written := written w2;
        documents_store :=
          <[doc_id := {| doc_filename := Documents.filename file;
                         doc_text := text;
                         doc_summary := kept_summary;
                         doc_entities := kept_entities |}]>
            (documents_store w2) |}).
Proof.
  intros file_path kept_summary kept_entities Hext Hwrite Hparse Hsum.
  unfold Documents.upload_document. rewrite Hext. cbn [negb].
  fold file_path.
  unfold mbind, M_bind, bind at 1. rewrite Hwrite.
  unfold bind at 1. rewrite Hparse.
  unfold bind at 1. rewrite Hsum.
  subst kept_summary kept_entities.
  destruct (ValidationAgent.validate_summary (Some summary));
    destruct (ValidationAgent.validate_entities (EntityAgent.extract text));
    reflexivity.
Qed.

End Upload.

(** C3. In the upload route, for a supported file that is saved and
    parses to [text]: the call succeeds, stores under [doc_id] the very summary and entities
    it returns, and whenever the summary check fails that summary is
    "Summary rolled back due to low quality.", whenever the entity check
    fails those entities are the one-key record
    {"error": "Entities rolled back due to low confidence."}. *)
Theorem upload_rolls_back_rejected_output (E : env)
    (file : Documents.UploadFile) (doc_id : string) (w w0 : world)
    (text : string) (w1 : world) :
  let file_path :=
    Documents.os_path_join Documents.UPLOAD_DIR
      (doc_id +:+ "_" +:+ Documents.filename file) in
  Py.endswith_any (Documents.filename file) [".pdf"; ".docx"; ".html"] = true →
  write_file E file_path (Documents.data file) w = (Ok tt, w0) →
  ParserAgent.parse E file_path w0 = (Ok text, w1) →
  ∃ summary w2 r w',
    SummarizerAgent.summarize_document E text w1 = (Ok summary, w2)
    ∧ Documents.upload_document E file doc_id w = (Ok r, w')
    ∧ documents_store w' !! doc_id
      = Some {| doc_filename := Documents.filename file;
                doc_text := text;
                doc_summary := Documents.r_summary r;
                doc_entities := Documents.r_entities r |}
    ∧ (ValidationAgent.validate_summary (Some summary) = false →
       Documents.r_summary r = "Summary rolled back due to low quality.")
    ∧ (ValidationAgent.validate_entities (EntityAgent.extract text) = false →
       Documents.r_entities r
       = {[ "error" := VStr "Entities rolled back due to low confidence." ]})
    ∧ (ValidationAgent.validate_summary (Some summary) = true →
       Documents.r_summary r = summary)
    ∧ (ValidationAgent.validate_entities (EntityAgent.extract text) = true →
       Documents.r_entities r = EntityAgent.extract text).
Proof.
  intros file_path Hext Hwrite Hparse.
  destruct (SummarizerAgent.summarize_document E text w1) as [out w2] eqn:Hsum.
  assert (∃ summary, out = Ok summary) as [summary ->].
  { pose proof (call_llm_returns E
       ("Provide a section-wise summary of this document:"
        +:+ Py.newline +:+ text) w1) as [s Hs].
    unfold SummarizerAgent.summarize_document in Hsum.
    rewrite Hsum in Hs. by exists s. }
  eexists summary, w2, _, _.
  split; [reflexivity|].
  split;
    [by apply (upload_document_run E file doc_id w w0 text w1 summary w2)|].
  cbn [documents_store Documents.r_summary Documents.r_entities].
  split; [by rewrite lookup_insert_eq|].
  repeat split; by intros ->.
Qed.

Lemma upload_rolls_back_rejected_output_witness :
  let E := Spec.fixed_env (Spec.success "Too short")
             ["nothing to report here"] in
  let file := {| Documents.filename := "memo.pdf"; Documents.data := [] |} in
  ∃ r w',
    Documents.upload_document E file "doc-1" Spec.initial_world = (Ok r, w')
    ∧ Documents.r_summary r = "Summary rolled back due to low quality."
    ∧ Documents.r_entities r = Spec.rollback_record
    ∧ documents_store w' !! "doc-1"
      = Some {| doc_filename := "memo.pdf";
                doc_text := "nothing to report here";
                doc_summary := "Summary rolled back due to low quality.";
                doc_entities := Spec.rollback_record |}.
Proof.
  intros E file.
  destruct (upload_rolls_back_rejected_output E file "doc-1"
              Spec.initial_world
              (write_file E "uploaded_docs/doc-1_memo.pdf" []
                 Spec.initial_world).2
              "nothing to report here"
              (Spec.record_open "uploaded_docs/doc-1_memo.pdf"
                 (write_file E "uploaded_docs/doc-1_memo.pdf" []
                    Spec.initial_world).2))
    as (summary & w2 & r & w' & Hsum & Hrun & Hstored & Hs & He & _).
  - reflexivity.
  - reflexivity.
  - reflexivity.
  - injection Hsum as <- _.
    exists r, w'. split; [exact Hrun|].
    rewrite Hstored.
    rewrite (Hs eq_refl).
    rewrite (He ltac:(vm_compute; reflexivity)).
    repeat split; reflexivity.
Defined.

(** ** The repository's test cases, replayed on the embedding *)

Section RepositoryTests.

Example test_validate_summary_failure_too_short :
  ValidationAgent.validate_summary (Some "Too short") = false.
Proof. reflexivity. Qed.

Example test_validate_summary_success :
  ValidationAgent.validate_summary
    (Some "This is a comprehensive summary with more than five words and meaningful content.")
  = true.
Proof. reflexivity. Qed.

Example test_extract_names_success :
  Re.findall EntityAgent.name_pattern
    "John Smith and Mary Johnson attended the meeting with Bob Wilson."
  = ["John Smith"; "Mary Johnson"; "Bob Wilson"].
Proof. vm_compute; reflexivity. Qed.

Example test_extract_dates_success :
  Re.findall EntityAgent.date_pattern
    "The meeting was on 12/25/2023, and the follow-up is 01-15-2024. Another date: 3/4/24."
  = ["12/25/2023"; "01-15-2024"; "3/4/24"].
Proof. vm_compute; reflexivity. Qed.

Example test_extract_organizations_success :
  Re.findall EntityAgent.org_pattern
    "Microsoft Corp and Apple Inc are competitors. Harvard University offers great programs."
  = ["Microsoft Corp"; "Apple Inc"; "Harvard University"].
Proof. vm_compute; reflexivity. Qed.

Example test_extract_edge_case_dates :
  Re.findall EntityAgent.date_pattern
    "Dates: 1/1/2023, 12/31/99, 2/29/2024, 13/45/2023 (invalid), and 99/99/99."
  = ["1/1/2023"; "12/31/99"; "2/29/2024"; "13/45/2023"; "99/99/99"].
Proof. vm_compute; reflexivity. Qed.

Example test_extract_no_entities :
  ValidationAgent.validate_entities
    (EntityAgent.extract
       "this is just some random text without any specific entities to extract.")
  = false.
Proof. vm_compute; reflexivity. Qed.

Example test_pdf_parsing_error :
  let E := {| AZURE_OPENAI_API_KEY := "key";
              AZURE_OPENAI_ENDPOINT := "endpoint";
              AZURE_OPENAI_DEPLOYMENT_NAME := "deployment";
              requests_post := λ _ _, Spec.success "ok";
              fitz_open := λ _ _, Raise (OtherException "PDF corruption error");
              docx_Document :=
                λ _ _, Ok ["First paragraph"; "Second paragraph"; EmptyString];
              bs4_get_text := λ _ _, Ok "Test Title";
              file_write := λ _ _ _, Written |} in
  (ParserAgent._parse_pdf E "corrupted.pdf" Spec.initial_world).1
  = Raise (DocumentParsingError "Failed parsing PDF: PDF corruption error")
  ∧ (ParserAgent.parse E "test.docx" Spec.initial_world).1
    = Ok ("First paragraph" +:+ Py.newline +:+ "Second paragraph").
Proof. split; reflexivity. Qed.

End RepositoryTests.

(** * Further properties of the code *)

(** ** Trimming *)

Section Trimming.

Lemma lstrip_head s :
  Py.lstrip s = EmptyString
  ∨ ∃ c t, Py.lstrip s = String c t ∧ Py.isspace c = false.
Proof.
  induction s as [|c s IH]; cbn [Py.lstrip]; [by left|].
  destruct (Py.isspace c) eqn:Hc; [exact IH|]. right. by exists c, s.
Qed.

Lemma rstrip_idempotent t : Py.rstrip (Py.rstrip t) = Py.rstrip t.
Proof.
  induction t as [|c t IH]; cbn [Py.rstrip]; [done|].
  destruct (Py.isspace c && negb (Py.nonempty (Py.rstrip t))) eqn:Hc;
    [done|].
  cbn [Py.rstrip]. by rewrite IH, Hc.
Qed.

(** The result of [strip] has nothing left to strip. *)
Lemma strip_trimmed s : Shape.trimmed (Py.strip s).
Proof.
  unfold Shape.trimmed, Py.strip.
  destruct (lstrip_head s) as [->|(c & t & -> & Hc)]; [done|].
  cbn [Py.rstrip]. rewrite Hc. cbn [andb Py.lstrip]. rewrite Hc.
  pose proof (rstrip_idempotent (String c t)) as Hr.
  cbn [Py.rstrip] in Hr. rewrite Hc in Hr. cbn [andb] in Hr. exact Hr.
Qed.

Lemma strip_not_blank s : Py.all_space s = false → Py.strip s ≠ EmptyString.
Proof. intros Hs Hstrip. apply strip_empty in Hstrip. congruence. Qed.

Lemma slice_to_all n s : Py.len s ≤ n → Py.slice_to n s = s.
Proof.
  unfold Py.len. revert n. induction s as [|c s IH]; intros [|n] Hn;
    simpl in *; try done; try lia.
  rewrite IH; [done | lia].
Qed.

Lemma append_nonempty s t : s ≠ EmptyString → s +:+ t ≠ EmptyString.
Proof. by destruct s. Qed.

End Trimming.

(** ** The summarizer beyond the failure status *)

(** X1. Whatever the endpoint does (answer, fail, raise, send a body that
    cannot be read), [_call_llm] raises nothing, posts exactly one
    request, and returns a string that is not empty. *)
Theorem call_llm_total_and_nonempty (E : env) (user_content : string)
    (w : world) :
  ∃ reply,
    SummarizerAgent._call_llm E user_content w
    = (Ok reply,
       Spec.record_post
         (Spec.summarizer_request E (Py.slice_to 4000 user_content)) w)
    ∧ reply ≠ EmptyString.
Proof.
  unfold SummarizerAgent._call_llm. run_monad.
  change (requests_post E _ _) with
    (requests_post E (posted w)
       (Spec.summarizer_request E (Py.slice_to 4000 user_content))).
  destruct (requests_post E _ _) as [r|e].
  - destruct (status_code r =? 200)%Z.
    + destruct (json_content r) as [c|e].
      * eexists. split; [reflexivity|].
        destruct (Py.nonempty (Py.strip c)) eqn:Hc; [|done].
        by apply nonempty_true.
      * destruct e; eexists; (split; [reflexivity | done]).
    + eexists. split; [reflexivity | done].
  - destruct e; eexists; (split; [reflexivity | done]).
Qed.

(** X2. On status 200 with readable content the summary returned is that
    content without the whitespace at its ends, or "No summary generated."
    when the content is empty or blank; either way it is trimmed. *)
Theorem call_llm_success_is_trimmed (E : env) (user_content : string)
    (w : world) (r : response) (c : string) :
  requests_post E (posted w)
    (Spec.summarizer_request E (Py.slice_to 4000 user_content))
  = Responded r →
  status_code r = 200%Z →
  json_content r = Ok c →
  ∃ reply,
    (SummarizerAgent._call_llm E user_content w).1 = Ok reply
    ∧ reply = (if Py.all_space c then "No summary generated."
               else Py.strip c)
    ∧ Shape.trimmed reply.
Proof.
  intros Hpost Hstatus Hjson.
  unfold SummarizerAgent._call_llm. run_monad.
  change (requests_post E _ _) with
    (requests_post E (posted w)
       (Spec.summarizer_request E (Py.slice_to 4000 user_content))).
  rewrite Hpost, Hstatus, Hjson. cbn [Z.eqb Pos.eqb fst].
  rewrite strip_nonempty. eexists. split; [reflexivity|].
  destruct (Py.all_space c); cbn [negb].
  - split; reflexivity.
  - split; [reflexivity | apply strip_trimmed].
Qed.

Lemma call_llm_success_is_trimmed_witness :
  let E := Spec.fixed_env (Spec.success "  The report covers the budget.  ") [] in
  ∃ reply,
    (SummarizerAgent._call_llm E "Summarize" Spec.initial_world).1 = Ok reply
    ∧ reply = "The report covers the budget."
    ∧ Shape.trimmed reply.
Proof.
  intros E.
  destruct (call_llm_success_is_trimmed E "Summarize" Spec.initial_world
              {| status_code := 200; text := EmptyString;
                 json_content := Ok "  The report covers the budget.  " |}
              "  The report covers the budget.  ")
    as (reply & Hrun & Heq & Htrim); [reflexivity..|].
  exists reply. split; [exact Hrun|]. split; [exact Heq | exact Htrim].
Defined.

(** X3. An exception of [requests.post], or of reading the body of a 200
    answer, becomes a returned string: "Summarization failed due to network
    error: ..." for a [RequestException], "Summarization failed due to
    unexpected error: ..." for any other, each followed by [str(e)]. *)
Theorem call_llm_absorbs_exceptions (E : env) (user_content : string)
    (w : world) (e : exn) :
  let rq := Spec.summarizer_request E (Py.slice_to 4000 user_content) in
  requests_post E (posted w) rq = PostRaised e
  ∨ (∃ r, requests_post E (posted w) rq = Responded r
          ∧ status_code r = 200%Z ∧ json_content r = Raise e) →
  (SummarizerAgent._call_llm E user_content w).1
  = Ok (match e with
        | RequestException m =>
            "Summarization failed due to network error: " +:+ m
        | _ => "Summarization failed due to unexpected error: "
               +:+ str_of_exn e
        end).
Proof.
  intros rq Hcase.
  unfold SummarizerAgent._call_llm. run_monad.
  change (requests_post E _ _) with (requests_post E (posted w) rq).
  destruct Hcase as [Hpost|(r & Hpost & Hstatus & Hjson)]; rewrite Hpost.
  - by destruct e.
  - rewrite Hstatus, Hjson. by destruct e.
Qed.

Lemma call_llm_absorbs_exceptions_witness :
  let E := Spec.fixed_env (PostRaised (RequestException "Connection timeout")) [] in
  (SummarizerAgent._call_llm E "Summarize" Spec.initial_world).1
  = Ok "Summarization failed due to network error: Connection timeout".
Proof.
  intros E.
  apply (call_llm_absorbs_exceptions E "Summarize" Spec.initial_world
           (RequestException "Connection timeout")).
  left. reflexivity.
Defined.

(** X4. The one request each summarize entry point posts has a user
    content of at most 4000 characters, and a text that fits beside its
    instruction line (3976 characters for a section, 3951 for a document,
    3972 for a joined corpus) is sent whole. *)
Theorem summarizer_sends_short_text_whole (E : env) (text : string)
    (texts : list string) (w : world) :
  (∃ sent,
     (SummarizerAgent.summarize_section E text w).2
     = Spec.record_post (Spec.summarizer_request E sent) w
     ∧ Py.len sent ≤ 4000
     ∧ (Py.len text ≤ 3976 → sent = Spec.section_prompt +:+ text))
  ∧ (∃ sent,
       (SummarizerAgent.summarize_document E text w).2
       = Spec.record_post (Spec.summarizer_request E sent) w
       ∧ Py.len sent ≤ 4000
       ∧ (Py.len text ≤ 3951 → sent = Spec.document_prompt +:+ text))
  ∧ (∃ sent,
       (SummarizerAgent.summarize_corpus E texts w).2
       = Spec.record_post (Spec.summarizer_request E sent) w
       ∧ Py.len sent ≤ 4000
       ∧ (Py.len (Py.join Spec.blank_line texts) ≤ 3972 →
          sent = Spec.corpus_prompt +:+ Py.join Spec.blank_line texts)).
Proof.
  unfold SummarizerAgent.summarize_corpus, SummarizerAgent.summarize_section,
    SummarizerAgent.summarize_document.
  rewrite !call_llm_world, <- !append_assoc.
  fold Spec.section_prompt Spec.document_prompt Spec.corpus_prompt
    Spec.blank_line.
  split; [|split]; eexists; (split; [reflexivity|]);
    (split; [apply slice_to_length|]);
    intros Hlen; rewrite slice_to_all; try done; rewrite append_length.
  - change (Py.len Spec.section_prompt) with 24. lia.
  - change (Py.len Spec.document_prompt) with 49. lia.
  - change (Py.len Spec.corpus_prompt) with 28. lia.
Qed.

Lemma summarizer_sends_short_text_whole_witness :
  let E := Spec.fixed_env (Spec.success "ok") [] in
  ∃ sent,
    (SummarizerAgent.summarize_document E "A short memo." Spec.initial_world).2
    = Spec.record_post (Spec.summarizer_request E sent) Spec.initial_world
    ∧ Py.len sent ≤ 4000
    ∧ sent = Spec.document_prompt +:+ "A short memo.".
Proof.
  intros E.
  destruct (summarizer_sends_short_text_whole E "A short memo." []
              Spec.initial_world) as (_ & (sent & Hw & Hcap & Hwhole) & _).
  exists sent. split; [exact Hw|]. split; [exact Hcap|].
  apply Hwhole. vm_compute. lia.
Defined.

(** ** The Q&A agent beyond its input checks *)

Section QA.

Context (E : env).

Lemma ask_unfold_request question doc_text w :
  Py.all_space question = false → Py.all_space doc_text = false →
  QAAgent.ask E question doc_text w
  = try_except
      (resp ← post E (Shape.qa_request E question doc_text);
       if (status_code resp =? 200)%Z then
         c ← lift (json_content resp);
         let ans := Py.strip c in
         ret (if Py.nonempty ans then ans else "No relevant answer found.")
       else
         ret ("Q&A failed: HTTP " +:+ pretty (status_code resp) +:+ " - "
              +:+ text resp))
      (λ e, match e with
            | RequestException _ =>
                ret ("Q&A failed due to network error: " +:+ str_of_exn e)
            | _ =>
                ret ("Q&A failed due to unexpected error: " +:+ str_of_exn e)
            end) w.
Proof.
  intros Hq Hd. unfold QAAgent.ask. rewrite !strip_nonempty, Hq, Hd.
  reflexivity.
Qed.

Lemma ask_world question doc_text w :
  Py.all_space question = false → Py.all_space doc_text = false →
  (QAAgent.ask E question doc_text w).2
  = Spec.record_post (Shape.qa_request E question doc_text) w.
Proof.
  intros Hq Hd. rewrite ask_unfold_request by done. run_monad.
  destruct (requests_post E _ _) as [r|e].
  - destruct (status_code r =? 200)%Z; [|done].
    destruct (json_content r) as [c|e]; [done|]. by destruct e.
  - by destruct e.
Qed.

Lemma ask_returns question doc_text w :
  ∃ reply, (QAAgent.ask E question doc_text w).1 = Ok reply.
Proof.
  destruct (Py.all_space question) eqn:Hq.
  { eexists. unfold QAAgent.ask. by rewrite strip_nonempty, Hq. }
  destruct (Py.all_space doc_text) eqn:Hd.
  { eexists. unfold QAAgent.ask. by rewrite !strip_nonempty, Hq, Hd. }
  rewrite ask_unfold_request by done. run_monad.
  destruct (requests_post E _ _) as [r|e].
  - destruct (status_code r =? 200)%Z; [|by eexists].
    destruct (json_content r) as [c|e]; [by eexists|]. destruct e; by eexists.
  - destruct e; by eexists.
Qed.

End QA.

(** X5. [ask] raises nothing and never returns an empty string; it posts
    no request when the question or the document is empty or blank, and
    exactly one, the Q&A request, otherwise. *)
Theorem ask_total_and_posts_at_most_once (E : env)
    (question doc_text : string) (w : world) :
  ∃ reply,
    QAAgent.ask E question doc_text w
    = (Ok reply,
       if Py.all_space question || Py.all_space doc_text then w
       else Spec.record_post (Shape.qa_request E question doc_text) w)
    ∧ reply ≠ EmptyString.
Proof.
  destruct (Py.all_space question) eqn:Hq.
  { exists "No question provided.". split; [|done].
    unfold QAAgent.ask. by rewrite strip_nonempty, Hq. }
  destruct (Py.all_space doc_text) eqn:Hd.
  { exists "No document content available.". split; [|done].
    unfold QAAgent.ask. by rewrite !strip_nonempty, Hq, Hd. }
  rewrite ask_unfold_request by done. run_monad. cbn [orb].
  destruct (requests_post E _ _) as [r|e].
  - destruct (status_code r =? 200)%Z.
    + destruct (json_content r) as [c|e].
      * eexists. split; [reflexivity|].
        destruct (Py.nonempty (Py.strip c)) eqn:Hc; [|done].
        by apply nonempty_true.
      * destruct e; eexists; (split; [reflexivity | done]).
    + eexists. split; [reflexivity | done].
  - destruct e; eexists; (split; [reflexivity | done]).
Qed.

(** X6. For a question and a document that are not blank, a status other
    than 200 gives "Q&A failed: HTTP <status> - <body>", and a 200 answer
    gives its content without the whitespace at its ends, or "No relevant
    answer found." when that content is empty or blank. *)
Theorem ask_reports_status_and_body (E : env) (question doc_text : string)
    (w : world) (r : response) :
  Py.all_space question = false →
  Py.all_space doc_text = false →
  requests_post E (posted w) (Shape.qa_request E question doc_text)
  = Responded r →
  (status_code r ≠ 200%Z →
   (QAAgent.ask E question doc_text w).1
   = Ok ("Q&A failed: HTTP " +:+ pretty (status_code r) +:+ " - "
         +:+ text r))
  ∧ (∀ c, status_code r = 200%Z → json_content r = Ok c →
     (QAAgent.ask E question doc_text w).1
     = Ok (if Py.all_space c then "No relevant answer found."
           else Py.strip c)).
Proof.
  intros Hq Hd Hpost. rewrite ask_unfold_request by done. run_monad.
  rewrite Hpost. split.
  - intros Hstatus.
    destruct (status_code r =? 200)%Z eqn:H200; [|done].
    by apply Z.eqb_eq in H200.
  - intros c Hstatus Hjson. rewrite Hstatus, Hjson. cbn [Z.eqb Pos.eqb fst].
    rewrite strip_nonempty. by destruct (Py.all_space c).
Qed.

Lemma ask_reports_status_and_body_witness :
  let E := Spec.fixed_env (Spec.failure 503 "Service Unavailable") [] in
  (QAAgent.ask E "Who wrote it?" "A memo by the board." Spec.initial_world).1
  = Ok "Q&A failed: HTTP 503 - Service Unavailable".
Proof.
  intros E.
  destruct (ask_reports_status_and_body E "Who wrote it?"
              "A memo by the board." Spec.initial_world
              {| status_code := 503; text := "Service Unavailable";
                 json_content := Raise (OtherException "no choices") |})
    as [Hfail _]; [reflexivity..|].
  apply Hfail. simpl. lia.
Defined.

(** X7. In the Q&A request the document is cut to its first 4000
    characters but the question is never cut: the user content is
    "Document:", the cut document, a blank line, "Question: " and the whole
    question, which it therefore ends with; a document of at most 4000
    characters is sent whole. *)
Theorem ask_sends_whole_question (E : env) (question doc_text : string)
    (w : world) :
  Py.all_space question = false →
  Py.all_space doc_text = false →
  ∃ sent,
    (QAAgent.ask E question doc_text w).2
    = Spec.record_post (Shape.qa_request E question doc_text) w
    ∧ Spec.user_contents [Shape.qa_request E question doc_text] = [sent]
    ∧ sent = "Document:" +:+ Py.newline +:+ Py.slice_to 4000 doc_text
             +:+ Spec.blank_line +:+ "Question: " +:+ question
    ∧ Py.endswith sent question = true
    ∧ (Py.len doc_text ≤ 4000 →
       sent = "Document:" +:+ Py.newline +:+ doc_text
              +:+ Spec.blank_line +:+ "Question: " +:+ question).
Proof.
  intros Hq Hd.
  eexists. split; [by apply ask_world|]. split; [reflexivity|].
  cbn [content]. unfold Spec.blank_line. rewrite !append_assoc.
  split; [reflexivity|]. split.
  - apply endswith_spec. eexists. rewrite <- !append_assoc. reflexivity.
  - intros Hlen. by rewrite slice_to_all.
Qed.

Lemma ask_sends_whole_question_witness :
  let E := Spec.fixed_env (Spec.success "The board.") [] in
  ∃ sent,
    Spec.user_contents
      (posted (QAAgent.ask E "Who wrote it?" "A memo by the board."
                 Spec.initial_world).2) = [sent]
    ∧ Py.endswith sent "Who wrote it?" = true.
Proof.
  intros E.
  destruct (ask_sends_whole_question E "Who wrote it?" "A memo by the board."
              Spec.initial_world) as (sent & Hw & Hsent & _ & Hend & _);
    [reflexivity..|].
  exists sent. split; [|exact Hend].
  rewrite Hw. exact Hsent.
Defined.

(** ** The entity validation call *)

(** X8. [EntityAgent.validate_entities] raises nothing and posts exactly
    one request; a status other than 200 gives "Entity validation failed:
    HTTP <status>" without the response body, and a 200 answer gives its
    content without the whitespace at its ends, with no replacement when
    nothing is left. *)
Theorem entity_validation_total (E : env) (text entities_text : string)
    (w : world) :
  let rq := Shape.entity_request E text entities_text in
  ∃ reply,
    EntityValidation.validate_entities E text entities_text w
    = (Ok reply, Spec.record_post rq w)
    ∧ (∀ r, requests_post E (posted w) rq = Responded r →
            status_code r ≠ 200%Z →
            reply = "Entity validation failed: HTTP "
                    +:+ pretty (status_code r))
    ∧ (∀ r c, requests_post E (posted w) rq = Responded r →
              status_code r = 200%Z → json_content r = Ok c →
              reply = Py.strip c).
Proof.
  intros rq. unfold EntityValidation.validate_entities. run_monad.
  change (requests_post E _ _) with (requests_post E (posted w) rq).
  destruct (requests_post E (posted w) rq) as [r|e].
  - destruct (status_code r =? 200)%Z eqn:H200.
    + apply Z.eqb_eq in H200.
      destruct (json_content r) as [c|e] eqn:Hjson.
      * eexists. split; [reflexivity|]. split.
        -- intros r' [= <-] Hne. done.
        -- intros r' c' [= <-] _ Hc. congruence.
      * destruct e; eexists; (split; [reflexivity|]); split;
          try (intros r' [= <-] Hne; done);
          intros r' c' [= <-] _ Hc; congruence.
    + apply Z.eqb_neq in H200.
      eexists. split; [reflexivity|]. split.
      * by intros r' [= <-] _.
      * intros r' c' [= <-] Hs. done.
  - destruct e; eexists; (split; [reflexivity|]); split; intros; done.
Qed.

Lemma entity_validation_total_witness :
  let E := Spec.fixed_env (Spec.failure 429 "Too many requests") [] in
  (EntityValidation.validate_entities E "John Smith works at Microsoft Corp."
     "{'names': ['John Smith']}" Spec.initial_world).1
  = Ok "Entity validation failed: HTTP 429".
Proof.
  intros E.
  destruct (entity_validation_total E "John Smith works at Microsoft Corp."
              "{'names': ['John Smith']}" Spec.initial_world)
    as (reply & Hrun & Hfail & _).
  rewrite Hrun. cbn [fst]. f_equal.
  apply (Hfail {| status_code := 429; text := "Too many requests";
                  json_content := Raise (OtherException "no choices") |});
    [reflexivity | simpl; lia].
Defined.

(** ** The parser's errors, DOCX paragraphs and PDF text *)

Section Parser.

Context (E : env).

Lemma parse_pdf_run file_path w :
  ParserAgent._parse_pdf E file_path w
  = (match fitz_open E (written w) file_path with
     | Ok pages => Ok (Py.strip (Py.join Py.newline pages))
     | Raise e =>
         Raise (DocumentParsingError ("Failed parsing PDF: " +:+ str_of_exn e))
     end, Spec.record_open file_path w).
Proof.
  unfold ParserAgent._parse_pdf. run_monad.
  destruct (fitz_open E (written w) file_path); [|done].
  by rewrite parse_pdf_text.
Qed.

Lemma parse_docx_run file_path w :
  ParserAgent._parse_docx E file_path w
  = (match docx_Document E (written w) file_path with
     | Ok paragraphs =>
         Ok (Py.join Py.newline
               (filter (λ p, Py.nonempty p = true) paragraphs))
     | Raise e =>
         Raise (DocumentParsingError ("Failed parsing DOCX: " +:+ str_of_exn e))
     end, Spec.record_open file_path w).
Proof.
  unfold ParserAgent._parse_docx. run_monad.
  by destruct (docx_Document E (written w) file_path).
Qed.

Lemma parse_html_run file_path w :
  ParserAgent._parse_html E file_path w
  = (match bs4_get_text E (written w) file_path with
     | Ok text => Ok text
     | Raise e =>
         Raise (DocumentParsingError ("Failed parsing HTML: " +:+ str_of_exn e))
     end, Spec.record_open file_path w).
Proof.
  unfold ParserAgent._parse_html. run_monad.
  by destruct (bs4_get_text E (written w) file_path).
Qed.

(** The three suffixes exclude one another. *)
Lemma endswith_pdf_not_others s :
  Py.endswith s ".pdf" = true →
  Py.endswith s ".docx" = false ∧ Py.endswith s ".html" = false.
Proof.
  intros H. apply endswith_extension in H; [|done].
  split; apply not_true_is_false; intros H';
    apply endswith_extension in H'; try done; congruence.
Qed.

Lemma endswith_docx_not_html s :
  Py.endswith s ".docx" = true → Py.endswith s ".html" = false.
Proof.
  intros H. apply endswith_extension in H; [|done].
  apply not_true_is_false; intros H';
    apply endswith_extension in H'; try done; congruence.
Qed.

End Parser.

Section Lines.

Lemma all_space_append s t :
  Py.all_space (s +:+ t) = Py.all_space s && Py.all_space t.
Proof.
  induction s as [|c s IH]; [done|].
  rewrite append_cons. cbn [Py.all_space]. by rewrite IH, andb_assoc.
Qed.

Lemma all_space_join pages :
  Forall (λ p, Py.all_space p = true) pages →
  Py.all_space (Py.join Py.newline pages) = true.
Proof.
  induction 1 as [|p pages Hp Hps IH]; [done|].
  destruct pages as [|q pages]; [done|].
  change (Py.join Py.newline (p :: q :: pages))
    with (p +:+ Py.newline +:+ Py.join Py.newline (q :: pages)).
  by rewrite !all_space_append, Hp, IH.
Qed.

Lemma lines_from_append cur s t :
  Shape.no_newline s = true →
  Shape.lines_from cur (s +:+ t) = Shape.lines_from (cur +:+ s) t.
Proof.
  revert cur. induction s as [|c s IH]; intros cur Hs.
  - by rewrite append_nil, append_empty_r.
  - unfold Shape.no_newline in Hs. cbn [Shape.all_chars] in Hs.
    apply andb_true_iff in Hs as [Hc Hs]. apply negb_true_iff in Hc.
    rewrite append_cons. cbn [Shape.lines_from]. rewrite Hc.
    rewrite IH by done. by rewrite snoc_append.
Qed.

(** Splitting at newlines undoes joining with newlines. *)
Lemma lines_join parts :
  parts ≠ [] →
  Forall (λ p, Shape.no_newline p = true) parts →
  Shape.lines (Py.join Py.newline parts) = parts.
Proof.
  intros Hne Hall. unfold Shape.lines.
  induction Hall as [|p parts Hp Hps IH]; [done|].
  destruct parts as [|q parts].
  - cbn [Py.join]. rewrite <- (append_empty_r p) at 1.
    by rewrite lines_from_append.
  - change (Py.join Py.newline (p :: q :: parts))
      with (p +:+ Py.newline +:+ Py.join Py.newline (q :: parts)).
    rewrite lines_from_append by done. rewrite append_nil.
    unfold Py.newline at 1. rewrite append_cons, append_nil.
    cbn [Shape.lines_from]. rewrite Ascii.eqb_refl.
    by rewrite IH.
Qed.

End Lines.

(** X9. Whatever the path, the file and the decoding library do, [parse]
    raises nothing but [UnsupportedFileFormatError] or
    [DocumentParsingError], and opens at most one file, the one at the
    path it was given. *)
Theorem parse_raises_only_typed_errors (E : env) (file_path : string)
    (w : world) :
  ((ParserAgent.parse E file_path w).2 = w
   ∨ (ParserAgent.parse E file_path w).2 = Spec.record_open file_path w)
  ∧ (∀ e, (ParserAgent.parse E file_path w).1 = Raise e →
       (∃ m, e = UnsupportedFileFormatError m)
       ∨ (∃ m, e = DocumentParsingError m)).
Proof.
  unfold ParserAgent.parse.
  destruct (Py.endswith file_path ".pdf").
  { rewrite parse_pdf_run. split; [by right|]. cbn [fst].
    destruct (fitz_open E _ _); intros e' [= <-]. right. by eexists. }
  destruct (Py.endswith file_path ".docx").
  { rewrite parse_docx_run. split; [by right|]. cbn [fst].
    destruct (docx_Document E _ _); intros e' [= <-]. right. by eexists. }
  destruct (Py.endswith file_path ".html").
  { rewrite parse_html_run. split; [by right|]. cbn [fst].
    destruct (bs4_get_text E _ _); intros e' [= <-]. right. by eexists. }
  split; [by left|]. intros e' [= <-]. left. by eexists.
Qed.

Lemma parse_raises_only_typed_errors_witness :
  let E := Shape.broken_pdf_env "cannot open broken document" in
  (ParserAgent.parse E "scan.pdf" Spec.initial_world).1
  = Raise (DocumentParsingError
             "Failed parsing PDF: cannot open broken document")
  ∧ ((∃ m, DocumentParsingError
             "Failed parsing PDF: cannot open broken document"
           = UnsupportedFileFormatError m)
     ∨ (∃ m, DocumentParsingError
               "Failed parsing PDF: cannot open broken document"
             = DocumentParsingError m)).
Proof.
  intros E. split; [reflexivity|].
  destruct (parse_raises_only_typed_errors E "scan.pdf" Spec.initial_world)
    as [_ Htyped].
  apply Htyped. reflexivity.
Defined.

(** X10. An exception of the decoding library, of whatever class, reaches
    the caller of [parse] as a [DocumentParsingError] whose message is
    "Failed parsing PDF: ", "Failed parsing DOCX: " or "Failed parsing
    HTML: " followed by the text of the original exception. *)
Theorem parse_wraps_decoder_errors (E : env) (file_path : string)
    (w : world) (e : exn) :
  (Py.endswith file_path ".pdf" = true →
   fitz_open E (written w) file_path = Raise e →
   (ParserAgent.parse E file_path w).1
   = Raise (DocumentParsingError ("Failed parsing PDF: " +:+ str_of_exn e)))
  ∧ (Py.endswith file_path ".docx" = true →
     docx_Document E (written w) file_path = Raise e →
     (ParserAgent.parse E file_path w).1
     = Raise (DocumentParsingError ("Failed parsing DOCX: " +:+ str_of_exn e)))
  ∧ (Py.endswith file_path ".html" = true →
     bs4_get_text E (written w) file_path = Raise e →
     (ParserAgent.parse E file_path w).1
     = Raise (DocumentParsingError ("Failed parsing HTML: " +:+ str_of_exn e))).
Proof.
  unfold ParserAgent.parse. split; [|split].
  - intros Hext Hraise. by rewrite Hext, parse_pdf_run, Hraise.
  - intros Hext Hraise.
    destruct (Py.endswith file_path ".pdf") eqn:Hpdf.
    { apply endswith_pdf_not_others in Hpdf as [? _]. congruence. }
    by rewrite Hext, parse_docx_run, Hraise.
  - intros Hext Hraise.
    destruct (Py.endswith file_path ".pdf") eqn:Hpdf.
    { apply endswith_pdf_not_others in Hpdf as [_ ?]. congruence. }
    destruct (Py.endswith file_path ".docx") eqn:Hdocx.
    { apply endswith_docx_not_html in Hdocx. congruence. }
    by rewrite Hext, parse_html_run, Hraise.
Qed.

Lemma parse_wraps_decoder_errors_witness :
  let E := Spec.fixed_env (Spec.success "ok") [] in
  (ParserAgent.parse E "notes.html" Spec.initial_world).1
  = Raise (DocumentParsingError "Failed parsing HTML: not an HTML file").
Proof.
  intros E.
  destruct (parse_wraps_decoder_errors E "notes.html" Spec.initial_world
              (OtherException "not an HTML file")) as (_ & _ & Hhtml).
  apply Hhtml; reflexivity.
Defined.

(** X11. For a path ending in .docx, [parse] returns the non-empty
    paragraphs joined by newlines, so empty paragraphs leave no trace;
    when no paragraph contains a newline and one is non-empty, the lines of
    the result are exactly the non-empty paragraphs in order, and when all
    are empty the result is the empty string. *)
Theorem parse_docx_drops_empty_paragraphs (E : env) (file_path : string)
    (w : world) (paragraphs : list string) :
  Py.endswith file_path ".docx" = true →
  docx_Document E (written w) file_path = Ok paragraphs →
  let kept := filter (λ p, Py.nonempty p = true) paragraphs in
  ∃ text,
    ParserAgent.parse E file_path w
    = (Ok text, Spec.record_open file_path w)
    ∧ text = Py.join Py.newline kept
    ∧ (Forall (λ p, Shape.no_newline p = true) paragraphs → kept ≠ [] →
       Shape.lines text = kept ∧ EmptyString ∉ Shape.lines text)
    ∧ (kept = [] → text = EmptyString).
Proof.
  intros Hext Hdoc kept. exists (Py.join Py.newline kept).
  split.
  { unfold ParserAgent.parse.
    destruct (Py.endswith file_path ".pdf") eqn:Hpdf.
    { apply endswith_pdf_not_others in Hpdf as [? _]. congruence. }
    by rewrite Hext, parse_docx_run, Hdoc. }
  split; [done|]. split.
  - intros Hnl Hkept.
    assert (Hlines : Shape.lines (Py.join Py.newline kept) = kept).
    { apply lines_join; [done|]. subst kept.
      apply Forall_forall. intros p Hp.
      apply list_elem_of_filter in Hp as [_ Hp].
      by apply (proj1 (Forall_forall _ _) Hnl). }
    split; [done|]. rewrite Hlines. subst kept.
    intros Hin. by apply list_elem_of_filter in Hin as [Hin _].
  - by intros ->.
Qed.

Lemma parse_docx_drops_empty_paragraphs_witness :
  let E := {| AZURE_OPENAI_API_KEY := "key";
              AZURE_OPENAI_ENDPOINT := "endpoint";
              AZURE_OPENAI_DEPLOYMENT_NAME := "deployment";
              requests_post := λ _ _, Spec.success "ok";
              fitz_open := λ _ _, Raise (OtherException "not a PDF");
              docx_Document :=
                λ _ _, Ok ["First paragraph"; EmptyString; "Second paragraph"];
              bs4_get_text := λ _ _, Raise (OtherException "not HTML");
              file_write := λ _ _ _, Written |} in
  ∃ text,
    (ParserAgent.parse E "test.docx" Spec.initial_world).1 = Ok text
    ∧ Shape.lines text = ["First paragraph"; "Second paragraph"].
Proof.
  intros E.
  destruct (parse_docx_drops_empty_paragraphs E "test.docx"
              Spec.initial_world
              ["First paragraph"; EmptyString; "Second paragraph"])
    as (text & Hrun & _ & Hlines & _); [reflexivity..|].
  exists text. split; [by rewrite Hrun|].
  apply Hlines; [|done].
  repeat constructor.
Defined.

(** X12. The text [parse] returns for a PDF has no whitespace at either
    end, and a PDF all of whose pages are empty or blank (a scan without a
    text layer) parses to the empty string rather than failing. *)
Theorem parse_pdf_trimmed_and_blank (E : env) (file_path : string)
    (w : world) (pages : list string) :
  Py.endswith file_path ".pdf" = true →
  fitz_open E (written w) file_path = Ok pages →
  ∃ text,
    (ParserAgent.parse E file_path w).1 = Ok text
    ∧ Shape.trimmed text
    ∧ (Forall (λ p, Py.all_space p = true) pages → text = EmptyString).
Proof.
  intros Hext Hopen. exists (Py.strip (Py.join Py.newline pages)).
  split; [|split].
  - unfold ParserAgent.parse. by rewrite Hext, parse_pdf_run, Hopen.
  - apply strip_trimmed.
  - intros Hblank. by apply strip_empty, all_space_join.
Qed.

Lemma parse_pdf_trimmed_and_blank_witness :
  let E := Spec.fixed_env (Spec.success "ok") [EmptyString; "  "; EmptyString] in
  (ParserAgent.parse E "scan.pdf" Spec.initial_world).1 = Ok EmptyString.
Proof.
  intros E.
  destruct (parse_pdf_trimmed_and_blank E "scan.pdf" Spec.initial_world
              [EmptyString; "  "; EmptyString])
    as (text & Hrun & _ & Hblank); [reflexivity..|].
  rewrite Hrun. f_equal. apply Hblank. repeat constructor.
Defined.

(** ** What the entity patterns can match *)

Section Matching.

Lemma match_here_class p lo hi r prev s :
  Re.match_here (Re.Class p lo hi :: r) prev s
  = Shape.try_counts (Re.match_here r) lo prev s (Re.run_length p hi 0 s).
Proof.
  cbn [Re.match_here]. generalize (Re.run_length p hi 0 s). intros n.
  induction n as [|n IH].
  - reflexivity.
  - cbn [Shape.try_counts]. rewrite <- IH. reflexivity.
Qed.

Lemma match_here_alt alternatives r prev s :
  Re.match_here (Re.Alt alternatives :: r) prev s
  = Shape.try_alternatives (Re.match_here r) prev s alternatives.
Proof.
  cbn [Re.match_here].
  induction alternatives as [|a l IH]; [reflexivity|].
  cbn [Shape.try_alternatives]. rewrite <- IH. reflexivity.
Qed.

End Matching.

Section MatchBounds.

Lemma all_chars_append p s t :
  Shape.all_chars p (s +:+ t) = Shape.all_chars p s && Shape.all_chars p t.
Proof.
  induction s as [|c s IH]; [done|].
  rewrite append_cons. cbn [Shape.all_chars]. by rewrite IH, andb_assoc.
Qed.

Lemma all_chars_impl (p q : ascii → bool) s :
  (∀ c, p c = true → q c = true) →
  Shape.all_chars p s = true → Shape.all_chars q s = true.
Proof.
  intros Hpq. induction s as [|c s IH]; [done|]. cbn [Shape.all_chars].
  rewrite !andb_true_iff. intros [Hc Hs]. split; [by apply Hpq | by apply IH].
Qed.

Lemma slice_to_split n s :
  ∃ rest, s = Py.slice_to n s +:+ rest.
Proof.
  revert s. induction n as [|n IH]; intros [|c s]; cbn [Py.slice_to];
    try (by eexists).
  destruct (IH s) as [rest Hrest]. exists rest.
  by rewrite append_cons, <- Hrest.
Qed.

Lemma slice_to_len n s : n ≤ Py.len s → Py.len (Py.slice_to n s) = n.
Proof.
  unfold Py.len. revert s. induction n as [|n IH]; intros [|c s] Hn;
    simpl in *; try done; try lia.
  rewrite IH; [done | lia].
Qed.

(** Moving [n] characters to the right leaves the rest of the text. *)
Lemma advance_split n prev s :
  n ≤ Py.len s →
  s = Py.slice_to n s +:+ (Re.advance n prev s).2
  ∧ Py.len (Re.advance n prev s).2 = Py.len s - n.
Proof.
  unfold Py.len. revert prev s.
  induction n as [|n IH]; intros prev [|c s] Hn; simpl in *;
    try (split; [done | lia]); try lia.
  destruct (IH (Some c) s) as [Hs Hl]; [lia|].
  split; [by rewrite append_cons, <- Hs | done].
Qed.

Lemma run_length_bounds p cap taken s :
  taken ≤ Re.run_length p cap taken s
  ∧ Re.run_length p cap taken s ≤ taken + Py.len s
  ∧ (∀ h, cap = Some h → taken ≤ h → Re.run_length p cap taken s ≤ h)
  ∧ Shape.all_chars p (Py.slice_to (Re.run_length p cap taken s - taken) s)
    = true.
Proof.
  unfold Py.len. revert taken.
  induction s as [|c s IH]; intros taken; cbn [Re.run_length].
  - replace (taken - taken) with 0 by lia. simpl. repeat split; [lia..|done].
  - destruct (p c && Re.below taken cap) eqn:Hc.
    + apply andb_true_iff in Hc as [Hc Hb].
      destruct (IH (S taken)) as (H1 & H2 & H3 & H4).
      split; [lia|]. split; [simpl; lia|]. split.
      * intros h -> Hh. apply (H3 h); [done|].
        unfold Re.below in Hb. apply Nat.ltb_lt in Hb. lia.
      * replace (Re.run_length p cap (S taken) s - taken)
          with (S (Re.run_length p cap (S taken) s - S taken)) by lia.
        cbn [Py.slice_to Shape.all_chars]. by rewrite Hc, H4.
    + replace (taken - taken) with 0 by lia. simpl.
      repeat split; [lia..|done].
Qed.

Lemma all_chars_slice_le p n m s :
  n ≤ m → Shape.all_chars p (Py.slice_to m s) = true →
  Shape.all_chars p (Py.slice_to n s) = true.
Proof.
  revert m s. induction n as [|n IH]; intros m s Hnm; [done|].
  destruct m as [|m]; [lia|]. destruct s as [|c s]; [done|].
  cbn [Py.slice_to Shape.all_chars]. rewrite !andb_true_iff.
  intros [Hc Hs]. split; [done|]. apply (IH m); [lia | done].
Qed.

Lemma try_counts_some continue lo prev s n k :
  Shape.try_counts continue lo prev s n = Some k →
  ∃ n' k', n' ≤ n ∧ lo ≤ n'
    ∧ continue (Re.advance n' prev s).1 (Re.advance n' prev s).2 = Some k'
    ∧ k = n' + k'.
Proof.
  induction n as [|n IH]; cbn [Shape.try_counts].
  - destruct (0 <? lo) eqn:Hlo; [done|]. apply Nat.ltb_ge in Hlo.
    destruct (Re.advance 0 prev s) as [prev' s'] eqn:Ha.
    destruct (continue prev' s') as [k'|] eqn:Hk; [|done].
    intros [= <-]. exists 0, k'. rewrite Ha. by repeat split.
  - destruct (S n <? lo) eqn:Hlo; [done|]. apply Nat.ltb_ge in Hlo.
    destruct (Re.advance (S n) prev s) as [prev' s'] eqn:Ha.
    destruct (continue prev' s') as [k'|] eqn:Hk.
    + intros [= <-]. exists (S n), k'. rewrite Ha. by repeat split.
    + intros Hrest. destruct (IH Hrest) as (n' & k' & ? & ? & ? & ?).
      exists n', k'. repeat split; try done. lia.
Qed.

Lemma try_alternatives_some continue prev s l k :
  Shape.try_alternatives continue prev s l = Some k →
  ∃ a k', a ∈ l ∧ Py.startswith s a = true
    ∧ continue (Re.advance (Py.len a) prev s).1
               (Re.advance (Py.len a) prev s).2 = Some k'
    ∧ k = Py.len a + k'.
Proof.
  induction l as [|a l IH]; cbn [Shape.try_alternatives]; [done|].
  destruct (Py.startswith s a) eqn:Hs.
  - destruct (Re.advance (Py.len a) prev s) as [prev' s'] eqn:Ha.
    destruct (continue prev' s') as [k'|] eqn:Hk.
    + intros [= <-]. exists a, k'. rewrite Ha.
      repeat split; try done. apply list_elem_of_here.
    + intros Hrest. destruct (IH Hrest) as (b & k' & ? & ? & ? & ?).
      exists b, k'. repeat split; try done. by apply list_elem_of_further.
  - intros Hrest. destruct (IH Hrest) as (b & k' & ? & ? & ? & ?).
    exists b, k'. repeat split; try done. by apply list_elem_of_further.
Qed.

Lemma startswith_split s a :
  Py.startswith s a = true → ∃ t, s = a +:+ t.
Proof.
  revert s. induction a as [|c a IH]; intros s; [by exists s|].
  destruct s as [|d s]; cbn [Py.startswith]; [done|].
  rewrite andb_true_iff. intros [Hc Hs]. apply Ascii.eqb_eq in Hc as ->.
  destruct (IH s Hs) as [t ->]. by exists t.
Qed.

Lemma alt_bounds a l :
  a ∈ l → Shape.alt_min l ≤ Py.len a ∧ Py.len a ≤ Shape.alt_max l.
Proof.
  intros Hin. split.
  - destruct l as [|b l]; [by apply elem_of_nil in Hin|].
    cbn [Shape.alt_min]. revert b Hin.
    induction l as [|c l IH]; intros b Hin.
    + apply list_elem_of_singleton in Hin as ->. simpl. lia.
    + cbn [foldr]. apply elem_of_cons in Hin as [->|Hin].
      * specialize (IH b (list_elem_of_here _ _)). lia.
      * apply elem_of_cons in Hin as [->|Hin].
        -- lia.
        -- assert (Hb : a ∈ b :: l) by by apply list_elem_of_further.
           specialize (IH b Hb). lia.
  - unfold Shape.alt_max. induction l as [|b l IH];
      [by apply elem_of_nil in Hin|].
    cbn [foldr]. apply elem_of_cons in Hin as [->|Hin]; [lia|].
    specialize (IH Hin). lia.
Qed.

Lemma char_in_self_suffix pre a :
  Shape.all_chars (λ c, Shape.char_in c (pre +:+ a)) a = true.
Proof.
  revert pre. induction a as [|c a IH]; intros pre; [done|].
  cbn [Shape.all_chars]. apply andb_true_iff. split.
  - clear IH. induction pre as [|d pre IHp].
    + rewrite append_nil. cbn [Shape.char_in]. by rewrite Ascii.eqb_refl.
    + rewrite append_cons. cbn [Shape.char_in]. by rewrite IHp, orb_true_r.
  - specialize (IH (Py.snoc pre c)). by rewrite snoc_append in IH.
Qed.

Lemma char_in_alternative a l :
  a ∈ l → Shape.all_chars (λ c, existsb (Shape.char_in c) l) a = true.
Proof.
  intros Hin.
  apply (all_chars_impl (λ c, Shape.char_in c a)).
  - intros c Hc. apply existsb_exists. exists a.
    split; [by apply list_elem_of_In | done].
  - apply (char_in_self_suffix EmptyString).
Qed.

End MatchBounds.

Section MatchSound.

(** A match stays inside the text, has a length the pattern allows, and
    consists of characters the pattern can consume. *)
Lemma match_here_sound r prev s k :
  Re.match_here r prev s = Some k →
  k ≤ Py.len s
  ∧ Shape.min_len r ≤ k
  ∧ (∀ m, Shape.max_len r = Some m → k ≤ m)
  ∧ Shape.all_chars (Shape.admits r) (Py.slice_to k s) = true.
Proof.
  revert prev s k. induction r as [|i r IH]; intros prev s k.
  - intros [= <-]. cbn.
    split; [lia|]. split; [lia|]. split; [intros m [= <-]; lia | done].
  - destruct i as [|c|p lo hi|alternatives].
    + cbn [Re.match_here]. destruct (Re.at_boundary prev s); [|done].
      intros Hk. destruct (IH _ _ _ Hk) as (H1 & H2 & H3 & H4).
      split; [done|]. split; [done|]. split.
      * cbn [Shape.max_len Shape.item_max].
        destruct (Shape.max_len r) as [b|]; [|done].
        intros m [= <-]. by apply H3.
      * revert H4. apply all_chars_impl. intros c Hc.
        unfold Shape.admits. cbn [existsb]. by rewrite orb_true_iff; right.
    + cbn [Re.match_here]. destruct s as [|d s]; [done|].
      destruct (Ascii.eqb c d) eqn:Hcd; [|done].
      destruct (Re.match_here r (Some d) s) as [k'|] eqn:Hk; [|done].
      intros [= <-]. destruct (IH _ _ _ Hk) as (H1 & H2 & H3 & H4).
      unfold Py.len in *. split; [simpl; lia|]. split; [simpl; lia|]. split.
      * cbn [Shape.max_len Shape.item_max].
        destruct (Shape.max_len r) as [b|]; [|done].
        intros m [= <-]. specialize (H3 b eq_refl). lia.
      * cbn [Py.slice_to Shape.all_chars]. apply andb_true_iff. split.
        -- unfold Shape.admits. cbn [existsb Shape.item_admits].
           by rewrite Ascii.eqb_sym, Hcd.
        -- revert H4. apply all_chars_impl. intros c' Hc'.
           unfold Shape.admits. cbn [existsb].
           by rewrite orb_true_iff; right.
    + rewrite match_here_class. intros Hk.
      apply try_counts_some in Hk as (n & k' & Hn & Hlo & Hk & ->).
      destruct (run_length_bounds p hi 0 s) as (_ & Hrun & Hcap & Hchars).
      rewrite Nat.sub_0_r in Hchars.
      assert (Hns : n ≤ Py.len s) by lia.
      destruct (advance_split n prev s Hns) as [Hsplit Hlen].
      destruct (IH _ _ _ Hk) as (H1 & H2 & H3 & H4).
      split; [lia|]. split; [cbn [Shape.min_len Shape.item_min]; lia|]. split.
      * cbn [Shape.max_len Shape.item_max].
        destruct hi as [h|]; [|done].
        destruct (Shape.max_len r) as [b|]; [|done].
        intros m [= <-]. specialize (H3 b eq_refl).
        specialize (Hcap h eq_refl). lia.
      * rewrite Hsplit at 1.
        rewrite <- (slice_to_len n s Hns) at 1.
        rewrite slice_to_append, all_chars_append.
        apply andb_true_iff. split.
        -- apply (all_chars_impl p); [intros c Hc|].
           ++ unfold Shape.admits. cbn [existsb Shape.item_admits].
              by rewrite Hc.
           ++ by apply (all_chars_slice_le p n (Re.run_length p hi 0 s)).
        -- revert H4. apply all_chars_impl. intros c Hc.
           unfold Shape.admits. cbn [existsb].
           by rewrite orb_true_iff; right.
    + rewrite match_here_alt. intros Hk.
      apply try_alternatives_some in Hk as (a & k' & Hin & Hstart & Hk & ->).
      destruct (startswith_split _ _ Hstart) as [t Ht].
      assert (Has : Py.len a ≤ Py.len s).
      { rewrite Ht, append_length. lia. }
      destruct (advance_split (Py.len a) prev s Has) as [Hsplit Hlen].
      destruct (IH _ _ _ Hk) as (H1 & H2 & H3 & H4).
      destruct (alt_bounds a alternatives Hin) as [Hmin Hmax].
      split; [lia|]. split; [cbn [Shape.min_len Shape.item_min]; lia|]. split.
      * cbn [Shape.max_len Shape.item_max].
        destruct (Shape.max_len r) as [b|]; [|done].
        intros m [= <-]. specialize (H3 b eq_refl). lia.
      * assert (Hpre : Py.slice_to (Py.len a) s = a).
        { rewrite Ht. rewrite <- (Nat.add_0_r (Py.len a)).
          rewrite slice_to_append. destruct t; by rewrite append_empty_r. }
        rewrite Hsplit at 1. rewrite Hpre.
        rewrite slice_to_append, all_chars_append.
        apply andb_true_iff. split.
        -- apply (all_chars_impl (λ c, existsb (Shape.char_in c) alternatives));
             [|by apply char_in_alternative].
           intros c Hc. unfold Shape.admits.
           cbn [existsb Shape.item_admits]. by rewrite Hc.
        -- revert H4. apply all_chars_impl. intros c Hc.
           unfold Shape.admits. cbn [existsb].
           by rewrite orb_true_iff; right.
Qed.

Lemma occurs_in_later c x s :
  Shape.occurs_in x s → Shape.occurs_in x (String c s).
Proof.
  intros (before & after & ->). exists (String c before), after.
  by rewrite append_cons.
Qed.

(** Every string [findall] returns is a match of the pattern inside the
    text. *)
Lemma scan_sound r skip prev s x :
  x ∈ Re.scan r skip prev s →
  Shape.occurs_in x s
  ∧ Shape.min_len r ≤ Py.len x
  ∧ (∀ m, Shape.max_len r = Some m → Py.len x ≤ m)
  ∧ Shape.all_chars (Shape.admits r) x = true.
Proof.
  revert skip prev. induction s as [|c s IH]; intros skip prev.
  - cbn [Re.scan]. destruct skip as [|skip];
      [|by intros ?%elem_of_nil].
    destruct (Re.match_here r prev EmptyString) as [k|] eqn:Hk;
      [|by intros ?%elem_of_nil].
    intros ->%list_elem_of_singleton.
    destruct (match_here_sound _ _ _ _ Hk) as (H1 & H2 & H3 & _).
    unfold Py.len in *. simpl in *.
    split; [by exists EmptyString, EmptyString|].
    split; [lia|]. split; [|done]. intros m Hm. lia.
  - cbn [Re.scan]. destruct skip as [|skip].
    + destruct (Re.match_here r prev (String c s)) as [[|k]|] eqn:Hk.
      * intros [->|Hin]%elem_of_cons.
        -- destruct (match_here_sound _ _ _ _ Hk) as (H1 & H2 & H3 & _).
           split; [by exists EmptyString, (String c s)|].
           unfold Py.len in *. simpl.
           split; [lia|]. split; [|done]. intros m Hm. lia.
        -- destruct (IH _ _ Hin) as (Ho & ?). split; [|done].
           by apply occurs_in_later.
      * intros [->|Hin]%elem_of_cons.
        -- destruct (match_here_sound _ _ _ _ Hk) as (H1 & H2 & H3 & H4).
           rewrite (slice_to_len (S k) (String c s) H1).
           split; [|by repeat split].
           destruct (slice_to_split (S k) (String c s)) as [rest Hrest].
           exists EmptyString, rest. by rewrite append_nil.
        -- destruct (IH _ _ Hin) as (Ho & ?). split; [|done].
           by apply occurs_in_later.
      * intros Hin. destruct (IH _ _ Hin) as (Ho & ?). split; [|done].
        by apply occurs_in_later.
    + intros Hin. destruct (IH _ _ Hin) as (Ho & ?). split; [|done].
      by apply occurs_in_later.
Qed.

End MatchSound.

(** ** The extractor's record *)

Ltac split_orb H :=
  repeat match type of H with
         | (_ || _) = true => apply orb_true_iff in H as [H|H]
         end.

Section PatternAlphabets.

Lemma name_alphabet c :
  Shape.admits EntityAgent.name_pattern c = true →
  Re.alpha c || Ascii.eqb c " " = true.
Proof.
  unfold Shape.admits, EntityAgent.name_pattern, Re.alpha.
  cbn [existsb Shape.item_admits]. intros H.
  split_orb H; try done; try (by rewrite H); try (by rewrite H, ?orb_true_r).
Qed.

Lemma date_alphabet c :
  Shape.admits EntityAgent.date_pattern c = true →
  Re.digit c || Re.dash_or_slash c = true.
Proof.
  unfold Shape.admits, EntityAgent.date_pattern.
  cbn [existsb Shape.item_admits]. intros H.
  split_orb H; try done; try (by rewrite H); try (by rewrite H, ?orb_true_r).
Qed.

Lemma org_alphabet c :
  Shape.admits EntityAgent.org_pattern c = true →
  Re.alpha c || Ascii.eqb c " " = true.
Proof.
  unfold Shape.admits, EntityAgent.org_pattern.
  cbn [existsb Shape.item_admits Shape.char_in]. intros H.
  unfold Re.alpha at 1 in H.
  split_orb H; try done;
    try (apply Ascii.eqb_eq in H as ->; reflexivity);
    unfold Re.alpha; try (by rewrite H); try (by rewrite H, ?orb_true_r).
Qed.

Lemma extract_lookup text key l :
  EntityAgent.extract text !! key = Some (VList l) →
  (key = "names"
   ∧ l = EntityAgent.list_of_set (Re.findall EntityAgent.name_pattern text))
  ∨ (key = "dates"
     ∧ l = EntityAgent.list_of_set (Re.findall EntityAgent.date_pattern text))
  ∨ (key = "organizations"
     ∧ l = EntityAgent.list_of_set (Re.findall EntityAgent.org_pattern text)).
Proof.
  intros H. change (EntityAgent.extract text) with
    (Spec.entity_set
       (EntityAgent.list_of_set (Re.findall EntityAgent.name_pattern text))
       (EntityAgent.list_of_set (Re.findall EntityAgent.date_pattern text))
       (EntityAgent.list_of_set (Re.findall EntityAgent.org_pattern text))) in H.
  apply entity_set_lookup in H as [[-> [= ->]]|[[-> [= ->]]|[-> [= ->]]]];
    auto.
Qed.

End PatternAlphabets.

(** X13. Whatever the text, [extract] returns a record with exactly the
    keys names, dates and organizations, each holding a list without
    duplicates (an empty one when nothing matches), never another shape. *)
Theorem extract_returns_three_duplicate_free_lists (text : string) :
  ∃ names dates organizations : list string,
    EntityAgent.extract text = Spec.entity_set names dates organizations
    ∧ dom (EntityAgent.extract text)
      = ({[ "names"; "dates"; "organizations" ]} : gset string)
    ∧ NoDup names ∧ NoDup dates ∧ NoDup organizations
    ∧ (∀ x, x ∈ names ↔ x ∈ Re.findall EntityAgent.name_pattern text)
    ∧ (∀ x, x ∈ dates ↔ x ∈ Re.findall EntityAgent.date_pattern text)
    ∧ (∀ x, x ∈ organizations
            ↔ x ∈ Re.findall EntityAgent.org_pattern text).
Proof.
  eexists _, _, _. split; [reflexivity|]. split.
  { unfold EntityAgent.extract.
    rewrite !dom_insert_L, dom_singleton_L. set_solver. }
  split; [apply list_of_set_NoDup|]. split; [apply list_of_set_NoDup|].
  split; [apply list_of_set_NoDup|].
  split; [|split]; intros x; apply list_of_set_elem.
Qed.

(** X14. Every entity [extract] returns occurs in the text as a contiguous
    piece and is never empty: a name has at least 5 characters, all letters
    or spaces; a date has 6 to 10 characters, all digits, "-" or "/"; an
    organization has at least 6 characters, all letters or spaces. *)
Theorem extracted_entities_occur_in_text (text key x : string)
    (l : list string) :
  EntityAgent.extract text !! key = Some (VList l) →
  x ∈ l →
  Shape.occurs_in x text
  ∧ x ≠ EmptyString
  ∧ (key = "names" →
     5 ≤ Py.len x
     ∧ Shape.all_chars (λ c, Re.alpha c || Ascii.eqb c " ") x = true)
  ∧ (key = "dates" →
     6 ≤ Py.len x ≤ 10
     ∧ Shape.all_chars (λ c, Re.digit c || Re.dash_or_slash c) x = true)
  ∧ (key = "organizations" →
     6 ≤ Py.len x
     ∧ Shape.all_chars (λ c, Re.alpha c || Ascii.eqb c " ") x = true).
Proof.
  intros Hkey Hx.
  apply extract_lookup in Hkey as [[-> ->]|[[-> ->]|[-> ->]]];
    apply (proj1 (list_of_set_elem _ _)) in Hx; unfold Re.findall in Hx;
    apply scan_sound in Hx as (Hocc & Hmin & Hmax & Hchars);
    (split; [exact Hocc|]); (split; [intros ->; cbn in Hmin; lia|]).
  - split; [|split; [done|done]]. intros _.
    split; [exact Hmin|]. revert Hchars. apply all_chars_impl, name_alphabet.
  - split; [done|]. split; [|done]. intros _.
    split; [split; [exact Hmin | by apply Hmax]|].
    revert Hchars. apply all_chars_impl, date_alphabet.
  - split; [done|]. split; [done|]. intros _.
    split; [exact Hmin|]. revert Hchars. apply all_chars_impl, org_alphabet.
Qed.

Lemma extracted_entities_occur_in_text_witness :
  let text := "Alice Johnson met on 12/12/2024 at OpenAI University." in
  Shape.occurs_in "12/12/2024" text ∧ 6 ≤ Py.len "12/12/2024" ≤ 10.
Proof.
  intros text.
  destruct (extracted_entities_occur_in_text text "dates" "12/12/2024"
              (EntityAgent.list_of_set
                 (Re.findall EntityAgent.date_pattern text)))
    as (Hocc & _ & _ & Hdate & _).
  - unfold EntityAgent.extract. by simplify_map_eq.
  - apply list_of_set_elem. vm_compute. constructor.
  - split; [exact Hocc|]. by apply Hdate.
Defined.

(** ** The upload route as a whole *)

Section UploadRoute.

Context (E : env).

Lemma upload_path_keeps_suffix doc_id filename suffix :
  Py.endswith filename suffix = true →
  Py.endswith (Shape.upload_path doc_id filename) suffix = true.
Proof.
  intros Hs. apply endswith_spec in Hs as [p ->].
  apply endswith_spec. unfold Shape.upload_path, Documents.os_path_join.
  destruct (Py.startswith _ "/").
  - eexists. by rewrite <- !append_assoc.
  - destruct (_ || _); eexists; by rewrite <- !append_assoc.
Qed.

Lemma upload_path_supported doc_id filename :
  Py.endswith_any filename [".pdf"; ".docx"; ".html"] = true →
  Py.endswith_any (Shape.upload_path doc_id filename)
    [".pdf"; ".docx"; ".html"] = true.
Proof.
  unfold Py.endswith_any. cbn [existsb]. rewrite !orb_false_r.
  rewrite !orb_true_iff.
  intros [H|[H|H]]; apply (upload_path_keeps_suffix doc_id) in H; auto.
Qed.

(** On a supported path the parser opens the file and raises, if at all,
    a [DocumentParsingError]. *)
Lemma parse_supported file_path w :
  Py.endswith_any file_path [".pdf"; ".docx"; ".html"] = true →
  (ParserAgent.parse E file_path w).2 = Spec.record_open file_path w
  ∧ (∀ e, (ParserAgent.parse E file_path w).1 = Raise e →
          ∃ m, e = DocumentParsingError m).
Proof.
  unfold Py.endswith_any. cbn [existsb]. rewrite !orb_false_r.
  intros Hany. unfold ParserAgent.parse.
  destruct (Py.endswith file_path ".pdf").
  { rewrite parse_pdf_run. split; [done|]. cbn [fst].
    destruct (fitz_open E _ _); intros e' [= <-]. by eexists. }
  destruct (Py.endswith file_path ".docx").
  { rewrite parse_docx_run. split; [done|]. cbn [fst].
    destruct (docx_Document E _ _); intros e' [= <-]. by eexists. }
  destruct (Py.endswith file_path ".html"); [|done].
  rewrite parse_html_run. split; [done|]. cbn [fst].
  destruct (bs4_get_text E _ _); intros e' [= <-]. by eexists.
Qed.

(** The route, step by step. *)
Lemma upload_document_steps file doc_id w :
  let file_path := Shape.upload_path doc_id (Documents.filename file) in
  Py.endswith_any (Documents.filename file) [".pdf"; ".docx"; ".html"] = true →
  Documents.upload_document E file doc_id w
  = match write_file E file_path (Documents.data file) w with
    | (Raise e, w0) => (Raise e, w0)
    | (Ok _, w0) =>
        match ParserAgent.parse E file_path w0 with
        | (Raise e, w1) => (Raise e, w1)
        | (Ok text, w1) =>
            match SummarizerAgent.summarize_document E text w1 with
            | (Raise e, w2) => (Raise e, w2)
            | (Ok summary, w2) =>
                let kept_summary :=
                  if ValidationAgent.validate_summary (Some summary)
                  then summary else ValidationAgent.rollback_summary in
                let kept_entities :=
                  if ValidationAgent.validate_entities
                       (EntityAgent.extract text)
                  then EntityAgent.extract text
                  else {[ "error" := VStr ValidationAgent.rollback_entities ]} in
                (Ok {| Documents.r_doc_id := doc_id;
                       Documents.r_filename := Documents.filename file;
                       Documents.r_summary := kept_summary;
                       Documents.r_entities := kept_entities |},
                 Shape.with_store w2
                   (<[doc_id := {| doc_filename := Documents.filename file;
                                   doc_text := text;
                                   doc_summary := kept_summary;
                                   doc_entities := kept_entities |}]>
                      (documents_store w2)))
            end
        end
    end.
Proof.
  intros file_path Hext.
  destruct (write_file E file_path (Documents.data file) w)
    as [[[]|e] w0] eqn:Hwrite.
  2: { unfold Documents.upload_document. rewrite Hext. cbn [negb].
       fold (Shape.upload_path doc_id (Documents.filename file)).
       fold file_path. unfold mbind, M_bind, bind at 1. by rewrite Hwrite. }
  destruct (ParserAgent.parse E file_path w0) as [[text|e] w1] eqn:Hparse.
  - destruct (SummarizerAgent.summarize_document E text w1)
      as [[summary|e] w2] eqn:Hsum.
    + by apply (upload_document_run E file doc_id w w0 text w1 summary w2).
    + destruct (call_llm_returns E
                  ("Provide a section-wise summary of this document:"
                   +:+ Py.newline +:+ text) w1) as (reply & Hrun).
      unfold SummarizerAgent.summarize_document in Hsum.
      rewrite Hsum in Hrun. done.
  - unfold Documents.upload_document. rewrite Hext. cbn [negb].
    fold (Shape.upload_path doc_id (Documents.filename file)).
    fold file_path. unfold mbind, M_bind, bind at 1. rewrite Hwrite.
    unfold bind at 1. by rewrite Hparse.
Qed.

(** A write that succeeds adds the file and nothing else; one that fails
    touches neither the store nor the traces. *)
Lemma write_file_effects path data w :
  (∀ w0, write_file E path data w = (Ok tt, w0) →
     w0 = {| posted := posted w; opened := opened w;
             written := <[path := data]> (written w);
             documents_store := documents_store w |})
  ∧ (∀ e w0, write_file E path data w = (Raise e, w0) →
       ∃ leftover, file_write E (written w) path data = WriteRaised e leftover
               ∧ posted w0 = posted w ∧ opened w0 = opened w
               ∧ documents_store w0 = documents_store w).
Proof.
  unfold write_file.
  destruct (file_write E (written w) path data) as [|e' [leftover|]]; split;
    try (intros ? [=]; done); try (intros ?? [=]; done).
  - intros e w0 [= <- <-]. by eexists.
  - intros e w0 [= <- <-]. by eexists.
Qed.

End UploadRoute.

(** X15. Every record the upload route stores and returns passes the
    quality gate: its summary passes [validate_summary] and is not empty,
    and its entities pass [validate_entities], also when they are the
    rollback replacements. *)
Theorem upload_output_passes_the_gate (E : env)
    (file : Documents.UploadFile) (doc_id : string) (w w' : world)
    (r : Documents.upload_response) :
  Documents.upload_document E file doc_id w = (Ok r, w') →
  ValidationAgent.validate_summary (Some (Documents.r_summary r)) = true
  ∧ Documents.r_summary r ≠ EmptyString
  ∧ ValidationAgent.validate_entities (Documents.r_entities r) = true
  ∧ ∃ text,
      documents_store w' !! doc_id
      = Some {| doc_filename := Documents.filename file;
                doc_text := text;
                doc_summary := Documents.r_summary r;
                doc_entities := Documents.r_entities r |}.
Proof.
  destruct (Py.endswith_any (Documents.filename file)
              [".pdf"; ".docx"; ".html"]) eqn:Hext.
  2: { unfold Documents.upload_document. by rewrite Hext. }
  rewrite upload_document_steps by done.
  destruct (write_file E _ _ w) as [[[]|e] w0]; [|done].
  destruct (ParserAgent.parse E _ w0) as [[text|e] w1]; [|done].
  destruct (SummarizerAgent.summarize_document E text w1)
    as [[summary|e] w2]; [|done].
  set (kept := if ValidationAgent.validate_summary (Some summary)
               then summary else ValidationAgent.rollback_summary).
  intros [= <- <-]. cbn [Documents.r_summary Documents.r_entities].
  assert (Hsummary : ValidationAgent.validate_summary (Some kept) = true).
  { subst kept.
    by destruct (ValidationAgent.validate_summary (Some summary)) eqn:Hv. }
  split; [exact Hsummary|]. split.
  { intros Hempty. rewrite Hempty in Hsummary. done. }
  split.
  - destruct (ValidationAgent.validate_entities (EntityAgent.extract text))
      eqn:Hv; [done|].
    apply validate_entities_some_value.
    exists "error", (VStr ValidationAgent.rollback_entities).
    split; [apply lookup_singleton_eq | simpl; lia].
  - exists text. unfold Shape.with_store. cbn [documents_store].
    by rewrite lookup_insert_eq.
Qed.

Lemma upload_output_passes_the_gate_witness :
  let E := Spec.fixed_env (Spec.success "Too short")
             ["nothing to report here"] in
  let file := {| Documents.filename := "memo.pdf"; Documents.data := [] |} in
  ∃ r w',
    Documents.upload_document E file "doc-1" Spec.initial_world = (Ok r, w')
    ∧ ValidationAgent.validate_summary (Some (Documents.r_summary r)) = true
    ∧ ValidationAgent.validate_entities (Documents.r_entities r) = true.
Proof.
  intros E file.
  destruct (Documents.upload_document E file "doc-1" Spec.initial_world)
    as [[r|e] w'] eqn:Hrun; [|by vm_compute in Hrun].
  exists r, w'. split; [reflexivity|].
  destruct (upload_output_passes_the_gate E file "doc-1" Spec.initial_world
              w' r Hrun) as (Hs & _ & He & _).
  by split.
Defined.



(** X17. A failed upload stores no record and calls the model not at all.
    It fails with [UnsupportedFileFormatError], and then nothing at all has
    happened; or with the exception raised while saving the file (a
    [FileNotFoundError] for a file name with a directory part, say), and
    then no file has been opened for parsing; or with
    [DocumentParsingError], and then the uploaded file has been written
    and stays written. *)
Theorem upload_failure_effects (E : env) (file : Documents.UploadFile)
    (doc_id : string) (w w' : world) (e : exn) :
  Documents.upload_document E file doc_id w = (Raise e, w') →
  let file_path := Shape.upload_path doc_id (Documents.filename file) in
  documents_store w' = documents_store w
  ∧ posted w' = posted w
  ∧ ((∃ m, e = UnsupportedFileFormatError m) ∧ w' = w
     ∨ (∃ leftover,
          file_write E (written w) file_path (Documents.data file)
          = WriteRaised e leftover)
       ∧ opened w' = opened w
     ∨ (∃ m, e = DocumentParsingError m)
       ∧ file_write E (written w) file_path (Documents.data file) = Written
       ∧ written w' = <[file_path := Documents.data file]> (written w)
       ∧ opened w' = opened w ++ [file_path]).
Proof.
  destruct (Py.endswith_any (Documents.filename file)
              [".pdf"; ".docx"; ".html"]) eqn:Hext.
  2: { unfold Documents.upload_document. rewrite Hext. cbn [negb].
       unfold raise. intros [= <- <-]. split; [done|]. split; [done|].
       left. split; [by eexists | done]. }
  rewrite upload_document_steps by done. intros Hrun file_path.
  fold file_path in Hrun.
  destruct (write_file E file_path (Documents.data file) w)
    as [[[]|e0] w0] eqn:Hwrite.
  2: { injection Hrun as <- <-.
       apply (write_file_effects E) in Hwrite
         as (leftover & Hfs & Hp & Ho & Hs).
       split; [done|]. split; [done|]. right. left.
       split; [by exists leftover | done]. }
  assert (Hfs : file_write E (written w) file_path (Documents.data file)
                = Written).
  { unfold write_file in Hwrite.
    by destruct (file_write E _ _ _) as [|? [?|]]. }
  apply (write_file_effects E) in Hwrite. subst w0.
  set (w0 := {| posted := posted w; opened := opened w;
                written := <[file_path := Documents.data file]> (written w);
                documents_store := documents_store w |}) in *.
  pose proof (parse_supported E file_path w0
                (upload_path_supported doc_id _ Hext)) as [Hw1 Htyped].
  destruct (ParserAgent.parse E _ w0) as [[text|e1] w1].
  - pose proof (call_llm_returns E
                  ("Provide a section-wise summary of this document:"
                   +:+ Py.newline +:+ text) w1) as [reply Hreply].
    unfold SummarizerAgent.summarize_document in Hrun.
    destruct (SummarizerAgent._call_llm E _ _) as [[summary|e2] w2];
      [done | by cbn in Hreply].
  - injection Hrun as <- <-. cbn [snd] in Hw1. subst w1.
    destruct (Htyped e1 eq_refl) as [m ->].
    split; [done|]. split; [done|]. right. right.
    split; [by eexists | done].
Qed.

Lemma upload_failure_effects_witness :
  let E := Shape.missing_directory_env in
  let file := {| Documents.filename := "a/b.html"; Documents.data := [] |} in
  ∃ e w',
    Documents.upload_document E file "doc-2" Spec.initial_world = (Raise e, w')
    ∧ e = OtherException
            "[Errno 2] No such file or directory: 'uploaded_docs/doc-2_a/b.html'"
    ∧ documents_store w' = ∅
    ∧ posted w' = []
    ∧ opened w' = [].
Proof.
  intros E file.
  destruct (Documents.upload_document E file "doc-2" Spec.initial_world)
    as [[r|e] w'] eqn:Hrun; [by vm_compute in Hrun|].
  exists e, w'. split; [reflexivity|].
  destruct (upload_failure_effects E file "doc-2" Spec.initial_world
              w' e Hrun)
    as (Hs & Hp & [[[m ->] _]|[[[leftover Hfs] Ho]|([m ->] & _)]]).
  - by vm_compute in Hrun.
  - rewrite Hs, Hp, Ho. split; [|done].
    vm_compute in Hfs. by injection Hfs as <- _.
  - by vm_compute in Hrun.
Defined.

(** ** The summary, Q&A and search routes *)

Section RouteFacts.

Context (E : env).

(** What a successful upload leaves under its identifier. *)
Lemma upload_stored_record file doc_id w w' r :
  Documents.upload_document E file doc_id w = (Ok r, w') →
  ∃ text,
    documents_store w' !! doc_id
    = Some {| doc_filename := Documents.filename file; doc_text := text;
              doc_summary := Documents.r_summary r;
              doc_entities := Documents.r_entities r |}.
Proof.
  destruct (Py.endswith_any (Documents.filename file)
              [".pdf"; ".docx"; ".html"]) eqn:Hext.
  2: { unfold Documents.upload_document. by rewrite Hext. }
  rewrite upload_document_steps by done.
  destruct (write_file E _ _ w) as [[[]|e] w0]; [|done].
  destruct (ParserAgent.parse E _ w0) as [[text|e] w1]; [|done].
  destruct (SummarizerAgent.summarize_document E text w1)
    as [[summary|e] w2]; [|done].
  intros [= <- <-]. exists text. unfold Shape.with_store.
  cbn [documents_store Documents.r_summary Documents.r_entities].
  by rewrite lookup_insert_eq.
Qed.


End RouteFacts.

(** X18. For a stored document, [update_summary] followed by [get_summary]
    gives back exactly the text that was sent, whatever it is: the update
    applies no quality check and no rollback. Only the summary of that one
    document changes; its file name, text and entities, the other
    documents, and the rest of the world stay as they were. *)
Theorem update_summary_then_get_summary (doc_id updated_summary : string)
    (w : world) (d : document) :
  documents_store w !! doc_id = Some d →
  let w' := Shape.with_store w
              (<[doc_id := Shape.with_summary d updated_summary]>
                 (documents_store w)) in
  Routes.update_summary doc_id updated_summary w
  = (Routes.Reply {| Routes.u_doc_id := doc_id;
                     Routes.u_summary := updated_summary;
                     Routes.u_status := "updated" |}, w')
  ∧ Routes.get_summary doc_id w'
    = (Routes.Reply {| Routes.s_doc_id := doc_id;
                       Routes.s_summary := updated_summary |}, w')
  ∧ (∀ other, other ≠ doc_id →
       documents_store w' !! other = documents_store w !! other).
Proof.
  intros Hd w'. split; [|split].
  - unfold Routes.update_summary. by rewrite Hd.
  - unfold Routes.get_summary. subst w'. unfold Shape.with_store.
    cbn [documents_store]. by rewrite lookup_insert_eq.
  - intros other Hother. subst w'. unfold Shape.with_store.
    cbn [documents_store]. by rewrite lookup_insert_ne.
Qed.

Lemma update_summary_then_get_summary_witness :
  let w := Shape.one_document_world "doc-1" Shape.sample_document in
  ∃ w',
    Routes.update_summary "doc-1" EmptyString w
    = (Routes.Reply {| Routes.u_doc_id := "doc-1";
                       Routes.u_summary := EmptyString;
                       Routes.u_status := "updated" |}, w')
    ∧ Routes.get_summary "doc-1" w'
      = (Routes.Reply {| Routes.s_doc_id := "doc-1";
                         Routes.s_summary := EmptyString |}, w')
    ∧ ValidationAgent.validate_summary (Some EmptyString) = false.
Proof.
  intros w.
  destruct (update_summary_then_get_summary "doc-1" EmptyString w
              Shape.sample_document) as (Hu & Hg & _).
  - apply lookup_singleton_eq.
  - eexists. split; [exact Hu|]. split; [exact Hg | reflexivity].
Defined.

(** X19. For an identifier that is not in the store, the summary, update
    and Q&A routes all answer with the HTTP exception 404 "Document not
    found" and change nothing: no record appears and the model is not
    called. *)
Theorem routes_answer_404_for_unknown_document (E : env)
    (doc_id text : string) (w : world) :
  documents_store w !! doc_id = None →
  Routes.get_summary doc_id w
  = (Routes.HTTPException 404 "Document not found", w)
  ∧ Routes.update_summary doc_id text w
    = (Routes.HTTPException 404 "Document not found", w)
  ∧ Routes.ask_question E doc_id text w
    = (Routes.HTTPException 404 "Document not found", w).
Proof.
  intros Hnone.
  unfold Routes.get_summary, Routes.update_summary, Routes.ask_question.
  by rewrite Hnone.
Qed.

Lemma routes_answer_404_for_unknown_document_witness :
  let E := Spec.fixed_env (Spec.success "An answer.") [] in
  Routes.update_summary "missing" "A new summary." Spec.initial_world
  = (Routes.HTTPException 404 "Document not found", Spec.initial_world).
Proof.
  intros E.
  apply (routes_answer_404_for_unknown_document E "missing" "A new summary."
           Spec.initial_world).
  apply lookup_empty.
Defined.

(** X20. After a successful upload, [get_summary] for the new identifier
    returns the very summary the upload answered with, rollback message
    included. *)
Theorem get_summary_after_upload (E : env) (file : Documents.UploadFile)
    (doc_id : string) (w w' : world) (r : Documents.upload_response) :
  Documents.upload_document E file doc_id w = (Ok r, w') →
  Routes.get_summary doc_id w'
  = (Routes.Reply {| Routes.s_doc_id := doc_id;
                     Routes.s_summary := Documents.r_summary r |}, w').
Proof.
  intros Hrun. apply upload_stored_record in Hrun as [text Hstored].
  unfold Routes.get_summary. by rewrite Hstored.
Qed.

Lemma get_summary_after_upload_witness :
  let E := Spec.fixed_env (Spec.success "Too short")
             ["nothing to report here"] in
  let file := {| Documents.filename := "memo.pdf"; Documents.data := [] |} in
  ∃ r w',
    Documents.upload_document E file "doc-1" Spec.initial_world = (Ok r, w')
    ∧ Routes.get_summary "doc-1" w'
      = (Routes.Reply
           {| Routes.s_doc_id := "doc-1";
              Routes.s_summary := "Summary rolled back due to low quality." |},
         w').
Proof.
  intros E file.
  destruct (Documents.upload_document E file "doc-1" Spec.initial_world)
    as [[r|e] w'] eqn:Hrun; [|by vm_compute in Hrun].
  exists r, w'. split; [reflexivity|].
  rewrite (get_summary_after_upload E file "doc-1" Spec.initial_world w' r Hrun).
  vm_compute in Hrun. by injection Hrun as <- _.
Defined.

(** X21. For a stored document the Q&A route always replies, never with
    an error: the reply carries the identifier, the question as asked, and
    the agent's answer for the stored text. When the stored text is empty
    or blank (as after uploading a scan without text) the answer is a
    sentinel and the model is not called. *)
Theorem ask_question_always_replies (E : env) (doc_id question : string)
    (w : world) (d : document) :
  documents_store w !! doc_id = Some d →
  (∃ answer,
     (QAAgent.ask E question (doc_text d) w).1 = Ok answer
     ∧ Routes.ask_question E doc_id question w
       = (Routes.Reply {| Routes.a_doc_id := doc_id;
                          Routes.a_question := question;
                          Routes.a_answer := answer |},
          (QAAgent.ask E question (doc_text d) w).2))
  ∧ (Py.all_space (doc_text d) = true →
     Routes.ask_question E doc_id question w
     = (Routes.Reply
          {| Routes.a_doc_id := doc_id;
             Routes.a_question := question;
             Routes.a_answer :=
               if Py.all_space question then "No question provided."
               else "No document content available." |}, w)).
Proof.
  intros Hd. split.
  - destruct (ask_returns E question (doc_text d) w) as [answer Hanswer].
    exists answer. split; [done|].
    unfold Routes.ask_question. rewrite Hd.
    destruct (QAAgent.ask E question (doc_text d) w) as [o w1].
    cbn [fst] in Hanswer. by subst o.
  - intros Hblank. unfold Routes.ask_question. rewrite Hd.
    unfold QAAgent.ask. rewrite !strip_nonempty, Hblank.
    by destruct (Py.all_space question).
Qed.

Lemma ask_question_always_replies_witness :
  let d := {| doc_filename := "scan.pdf"; doc_text := EmptyString;
              doc_summary := "Summary rolled back due to low quality.";
              doc_entities := Spec.rollback_record |} in
  let w := Shape.one_document_world "doc-3" d in
  let E := Spec.fixed_env (Spec.success "An answer.") [] in
  Routes.ask_question E "doc-3" "What is the total?" w
  = (Routes.Reply {| Routes.a_doc_id := "doc-3";
                     Routes.a_question := "What is the total?";
                     Routes.a_answer := "No document content available." |},
     w).
Proof.
  intros d w E.
  destruct (ask_question_always_replies E "doc-3" "What is the total?" w d)
    as [_ Hblank].
  - apply lookup_singleton_eq.
  - apply Hblank. reflexivity.
Defined.

(** X22. Editing a summary does not change what the Q&A route answers:
    after [update_summary] the reply to any question about that document
    is the one it would have been before, since the stored text and the
    history of requests are untouched. *)
Theorem ask_question_ignores_summary_edits (E : env)
    (doc_id updated_summary question : string) (w : world) (d : document) :
  documents_store w !! doc_id = Some d →
  (Routes.ask_question E doc_id question
     (Routes.update_summary doc_id updated_summary w).2).1
  = (Routes.ask_question E doc_id question w).1
  ∧ posted (Routes.ask_question E doc_id question
              (Routes.update_summary doc_id updated_summary w).2).2
    = posted (Routes.ask_question E doc_id question w).2.
Proof.
  intros Hd. unfold Routes.update_summary. rewrite Hd. cbn [snd].
  unfold Routes.ask_question. cbn [documents_store].
  rewrite lookup_insert_eq, Hd. cbn [doc_text].
  set (w1 := {| posted := posted w; opened := opened w;
                written := written w; documents_store := _ |}).
  destruct (Py.all_space question) eqn:Hq.
  { unfold QAAgent.ask. by rewrite !strip_nonempty, Hq. }
  destruct (Py.all_space (doc_text d)) eqn:Ht.
  { unfold QAAgent.ask. by rewrite !strip_nonempty, Hq, Ht. }
  rewrite !ask_unfold_request by done. run_monad.
  change (posted w1) with (posted w).
  destruct (requests_post E (posted w) _) as [r|e].
  - destruct (status_code r =? 200)%Z; [|done].
    destruct (json_content r) as [c|e]; [done|]. by destruct e.
  - by destruct e.
Qed.

Lemma ask_question_ignores_summary_edits_witness :
  let w := Shape.one_document_world "doc-1" Shape.sample_document in
  let E := Spec.fixed_env (Spec.success "On 3/4/24.") [] in
  (Routes.ask_question E "doc-1" "When?"
     (Routes.update_summary "doc-1" "Edited." w).2).1
  = (Routes.ask_question E "doc-1" "When?" w).1.
Proof.
  intros w E.
  apply (ask_question_ignores_summary_edits E "doc-1" "Edited." "When?" w
           Shape.sample_document).
  apply lookup_singleton_eq.
Defined.



(** ** sanitize_filename *)

Section Sanitize.

Import Helpers.

Lemma startswith_empty s : Py.startswith s EmptyString = true.
Proof. by destruct s. Qed.

Lemma underscore_is_safe c : is_underscore c = true → unsafe c = false.
Proof. intros ->%Ascii.eqb_eq. reflexivity. Qed.

Lemma replace_unsafe_safe s :
  Shape.all_chars (λ c, negb (unsafe c)) (replace_unsafe s) = true.
Proof.
  induction s as [|c s IH]; [done|].
  cbn [replace_unsafe Shape.all_chars]. rewrite IH, andb_true_r.
  by destruct (unsafe c) eqn:Hc; [|rewrite Hc].
Qed.

Lemma replace_unsafe_id s :
  Shape.all_chars (λ c, negb (unsafe c)) s = true → replace_unsafe s = s.
Proof.
  induction s as [|c s IH]; [done|]. cbn [replace_unsafe Shape.all_chars].
  rewrite andb_true_iff. intros [Hc Hs]. apply negb_true_iff in Hc.
  by rewrite Hc, IH.
Qed.

Lemma collapse_keeps p s :
  Shape.all_chars p s = true →
  Shape.all_chars p (collapse_underscores s) = true.
Proof.
  induction s as [|c s IH]; [done|].
  cbn [collapse_underscores Shape.all_chars]. rewrite andb_true_iff.
  intros [Hc Hs].
  destruct (is_underscore c && starts_with_underscore s); [by apply IH|].
  cbn [Shape.all_chars]. by rewrite Hc, IH.
Qed.

Lemma lstrip_keeps p s :
  Shape.all_chars p s = true →
  Shape.all_chars p (lstrip_underscores s) = true.
Proof.
  induction s as [|c s IH]; [done|]. cbn [lstrip_underscores].
  destruct (is_underscore c); [|done].
  cbn [Shape.all_chars]. rewrite andb_true_iff. intros [_ Hs]. by apply IH.
Qed.

Lemma rstrip_keeps p s :
  Shape.all_chars p s = true →
  Shape.all_chars p (rstrip_underscores s) = true.
Proof.
  induction s as [|c s IH]; [done|]. cbn [rstrip_underscores Shape.all_chars].
  rewrite andb_true_iff. intros [Hc Hs].
  destruct (is_underscore c && negb (Py.nonempty (rstrip_underscores s)));
    [done|].
  cbn [Shape.all_chars]. by rewrite Hc, IH.
Qed.

Lemma collapse_first s :
  starts_with_underscore (collapse_underscores s) = starts_with_underscore s.
Proof.
  induction s as [|c s IH]; [done|]. cbn [collapse_underscores].
  destruct (is_underscore c && starts_with_underscore s) eqn:Hc; [|done].
  apply andb_true_iff in Hc as [Hc Hs]. rewrite IH.
  cbn [starts_with_underscore]. by rewrite Hc, Hs.
Qed.

Lemma collapse_no_double s :
  Shape.no_double_underscore (collapse_underscores s) = true.
Proof.
  induction s as [|c s IH]; [done|]. cbn [collapse_underscores].
  destruct (is_underscore c && starts_with_underscore s) eqn:Hc; [done|].
  cbn [Shape.no_double_underscore]. by rewrite collapse_first, Hc, IH.
Qed.

Lemma collapse_id s :
  Shape.no_double_underscore s = true → collapse_underscores s = s.
Proof.
  induction s as [|c s IH]; [done|].
  cbn [collapse_underscores Shape.no_double_underscore].
  rewrite andb_true_iff. intros [Hc Hs]. apply negb_true_iff in Hc.
  by rewrite Hc, IH.
Qed.

Lemma lstrip_no_double s :
  Shape.no_double_underscore s = true →
  Shape.no_double_underscore (lstrip_underscores s) = true.
Proof.
  induction s as [|c s IH]; [done|]. cbn [lstrip_underscores].
  destruct (is_underscore c); [|done].
  cbn [Shape.no_double_underscore]. rewrite andb_true_iff.
  intros [_ Hs]. by apply IH.
Qed.

Lemma rstrip_first s :
  starts_with_underscore (rstrip_underscores s) = true →
  starts_with_underscore s = true.
Proof.
  destruct s as [|c s]; [done|]. cbn [rstrip_underscores].
  by destruct (is_underscore c && negb (Py.nonempty (rstrip_underscores s))).
Qed.

Lemma rstrip_no_double s :
  Shape.no_double_underscore s = true →
  Shape.no_double_underscore (rstrip_underscores s) = true.
Proof.
  induction s as [|c s IH]; [done|].
  cbn [rstrip_underscores Shape.no_double_underscore].
  rewrite andb_true_iff. intros [Hc Hs]. apply negb_true_iff in Hc.
  destruct (is_underscore c && negb (Py.nonempty (rstrip_underscores s)));
    [done|].
  cbn [Shape.no_double_underscore]. rewrite (IH Hs), andb_true_r.
  apply negb_true_iff.
  destruct (is_underscore c) eqn:Hu; [|done]. cbn [andb] in *.
  destruct (starts_with_underscore (rstrip_underscores s)) eqn:Hr; [|done].
  apply rstrip_first in Hr. congruence.
Qed.

Lemma starts_double c s :
  Py.startswith (String c s) "__"
  = is_underscore c && starts_with_underscore s.
Proof.
  cbn [Py.startswith]. unfold is_underscore.
  rewrite (Ascii.eqb_sym "_" c).
  destruct s as [|d s]; cbn [Py.startswith starts_with_underscore].
  - done.
  - unfold is_underscore.
    by rewrite (Ascii.eqb_sym "_" d), startswith_empty, andb_true_r.
Qed.

Lemma contains_double s :
  Py.contains "__" s = negb (Shape.no_double_underscore s).
Proof.
  induction s as [|c s IH]; [done|].
  cbn [Py.contains Shape.no_double_underscore].
  rewrite starts_double, IH.
  by destruct (is_underscore c && starts_with_underscore s),
       (Shape.no_double_underscore s).
Qed.

Lemma starts_single s :
  Py.startswith s "_" = starts_with_underscore s.
Proof.
  destruct s as [|c s]; [done|].
  cbn [Py.startswith starts_with_underscore]. unfold is_underscore.
  by rewrite (Ascii.eqb_sym "_" c), startswith_empty, andb_true_r.
Qed.

Lemma lstrip_first s :
  starts_with_underscore (lstrip_underscores s) = false.
Proof.
  induction s as [|c s IH]; [done|]. cbn [lstrip_underscores].
  destruct (is_underscore c) eqn:Hc; [done|].
  cbn [starts_with_underscore]. done.
Qed.

Lemma lstrip_id s :
  starts_with_underscore s = false → lstrip_underscores s = s.
Proof.
  destruct s as [|c s]; [done|].
  cbn [starts_with_underscore lstrip_underscores]. by intros ->.
Qed.

Lemma rstrip_keeps_first s :
  starts_with_underscore s = false →
  starts_with_underscore (rstrip_underscores s) = false.
Proof.
  destruct s as [|c s]; [done|].
  cbn [starts_with_underscore rstrip_underscores]. intros Hc.
  by rewrite Hc.
Qed.

Lemma single_underscore c s :
  String.eqb (String c s) "_" = is_underscore c && negb (Py.nonempty s).
Proof.
  unfold is_underscore. destruct (Ascii.eqb c "_") eqn:Hc.
  - apply Ascii.eqb_eq in Hc as ->. by destruct s.
  - apply not_true_is_false. intros He. apply String.eqb_eq in He.
    injection He as -> _. by rewrite Ascii.eqb_refl in Hc.
Qed.

Lemma rstrip_last s : Py.endswith (rstrip_underscores s) "_" = false.
Proof.
  induction s as [|c s IH]; [done|]. cbn [rstrip_underscores].
  destruct (is_underscore c && negb (Py.nonempty (rstrip_underscores s)))
    eqn:Hc; [done|].
  cbn [Py.endswith]. by rewrite single_underscore, Hc, IH.
Qed.

Lemma rstrip_id s :
  Py.endswith s "_" = false → rstrip_underscores s = s.
Proof.
  induction s as [|c s IH]; [done|]. cbn [Py.endswith rstrip_underscores].
  rewrite single_underscore.
  destruct (is_underscore c && negb (Py.nonempty s)) eqn:Hc; [done|].
  intros Hs. rewrite (IH Hs). by rewrite Hc.
Qed.

End Sanitize.

Section SanitizeWhole.

Import Helpers.

Lemma sanitize_clean filename : Shape.clean (sanitize_filename filename).
Proof.
  unfold sanitize_filename.
  set (stripped := strip_underscores
                     (collapse_underscores (replace_unsafe filename))).
  destruct (Py.nonempty stripped) eqn:Hne.
  2: { unfold Shape.clean. repeat split; done. }
  subst stripped. unfold strip_underscores in *.
  set (collapsed := collapse_underscores (replace_unsafe filename)) in *.
  split; [by apply nonempty_true|]. split.
  { apply rstrip_keeps, lstrip_keeps, collapse_keeps, replace_unsafe_safe. }
  split.
  { rewrite contains_double. apply negb_false_iff.
    apply rstrip_no_double, lstrip_no_double, collapse_no_double. }
  split.
  { rewrite starts_single. apply rstrip_keeps_first, lstrip_first. }
  apply rstrip_last.
Qed.

Lemma sanitize_fixed s : Shape.clean s → sanitize_filename s = s.
Proof.
  intros (Hne & Hsafe & Hdouble & Hfirst & Hlast).
  unfold sanitize_filename, strip_underscores.
  rewrite replace_unsafe_id by done.
  rewrite contains_double in Hdouble. apply negb_false_iff in Hdouble.
  rewrite collapse_id by done.
  rewrite starts_single in Hfirst.
  rewrite lstrip_id by done. rewrite rstrip_id by done.
  apply nonempty_true in Hne. by rewrite Hne.
Qed.

Lemma kept_replace s :
  Shape.kept_chars (replace_unsafe s) = Shape.kept_chars s.
Proof.
  induction s as [|c s IH]; [done|].
  cbn [replace_unsafe Shape.kept_chars]. rewrite IH.
  destruct (unsafe c) eqn:Hc; [done | by rewrite Hc].
Qed.

Lemma kept_collapse s :
  Shape.kept_chars (collapse_underscores s) = Shape.kept_chars s.
Proof.
  induction s as [|c s IH]; [done|].
  cbn [collapse_underscores Shape.kept_chars].
  destruct (is_underscore c && starts_with_underscore s) eqn:Hc.
  - apply andb_true_iff in Hc as [Hc _]. by rewrite Hc, orb_true_r.
  - cbn [Shape.kept_chars]. by rewrite IH.
Qed.

Lemma kept_lstrip s :
  Shape.kept_chars (lstrip_underscores s) = Shape.kept_chars s.
Proof.
  induction s as [|c s IH]; [done|].
  cbn [lstrip_underscores Shape.kept_chars].
  destruct (is_underscore c) eqn:Hc; [by rewrite orb_true_r|].
  cbn [Shape.kept_chars]. by rewrite Hc.
Qed.

Lemma kept_rstrip s :
  Shape.kept_chars (rstrip_underscores s) = Shape.kept_chars s.
Proof.
  induction s as [|c s IH]; [done|].
  cbn [rstrip_underscores Shape.kept_chars].
  destruct (is_underscore c && negb (Py.nonempty (rstrip_underscores s)))
    eqn:Hc.
  - apply andb_true_iff in Hc as [Hc Hr]. rewrite Hc, orb_true_r.
    apply negb_true_iff, nonempty_false in Hr. by rewrite <- IH, Hr.
  - cbn [Shape.kept_chars]. by rewrite IH.
Qed.

Lemma kept_strip_collapse_replace s :
  Shape.kept_chars
    (strip_underscores (collapse_underscores (replace_unsafe s)))
  = Shape.kept_chars s.
Proof.
  unfold strip_underscores.
  by rewrite kept_rstrip, kept_lstrip, kept_collapse, kept_replace.
Qed.

Lemma nothing_kept_all_underscores s :
  Shape.kept_chars s = EmptyString →
  Shape.all_chars is_underscore (replace_unsafe s) = true.
Proof.
  induction s as [|c s IH]; [done|].
  cbn [Shape.kept_chars replace_unsafe Shape.all_chars].
  destruct (unsafe c) eqn:Hu; cbn [orb].
  - intros Hs. by rewrite (IH Hs).
  - destruct (is_underscore c) eqn:Hc; [|done].
    intros Hs. by rewrite (IH Hs).
Qed.

Lemma lstrip_all_underscores s :
  Shape.all_chars is_underscore s = true → lstrip_underscores s = EmptyString.
Proof.
  induction s as [|c s IH]; [done|].
  cbn [Shape.all_chars lstrip_underscores]. rewrite andb_true_iff.
  intros [Hc Hs]. by rewrite Hc, IH.
Qed.

End SanitizeWhole.

(** X24. Whatever the file name, [sanitize_filename] returns a name that
    is not empty, contains none of the characters less-than, greater-than,
    colon, double quote, slash, backslash, bar, question mark and star,
    has no two underscores in a row, and neither starts nor ends with an
    underscore. *)
Theorem sanitize_filename_output_is_clean (filename : string) :
  let name := Helpers.sanitize_filename filename in
  name ≠ EmptyString
  ∧ Shape.all_chars (λ c, negb (Helpers.unsafe c)) name = true
  ∧ Py.contains "__" name = false
  ∧ Py.startswith name "_" = false
  ∧ Py.endswith name "_" = false.
Proof. exact (sanitize_clean filename). Qed.

(** X25. A name that already is clean in that sense is returned unchanged,
    so [sanitize_filename] is idempotent: sanitizing a sanitized name
    changes nothing. *)
Theorem sanitize_filename_is_idempotent :
  (∀ name, Shape.clean name → Helpers.sanitize_filename name = name)
  ∧ (∀ filename,
       Helpers.sanitize_filename (Helpers.sanitize_filename filename)
       = Helpers.sanitize_filename filename).
Proof.
  split; [exact sanitize_fixed|].
  intros filename. apply sanitize_fixed, sanitize_clean.
Qed.

Lemma sanitize_filename_is_idempotent_witness :
  Helpers.sanitize_filename "quarterly report.pdf" = "quarterly report.pdf".
Proof.
  destruct sanitize_filename_is_idempotent as [Hfixed _].
  apply Hfixed. unfold Shape.clean. repeat split; done.
Defined.

(** X26. [sanitize_filename] only ever touches unsafe characters and
    underscores: the other characters of the name (spaces included) come
    out unchanged and in order. When the name has no such other character
    the result is "document". *)
Theorem sanitize_filename_keeps_other_characters (filename : string) :
  (Shape.kept_chars filename ≠ EmptyString →
   Shape.kept_chars (Helpers.sanitize_filename filename)
   = Shape.kept_chars filename)
  ∧ (Shape.kept_chars filename = EmptyString →
     Helpers.sanitize_filename filename = "document").
Proof.
  unfold Helpers.sanitize_filename.
  pose proof (kept_strip_collapse_replace filename) as Hkept.
  split.
  - intros Hne.
    destruct (Py.nonempty _) eqn:Hs; [done|].
    apply nonempty_false in Hs. rewrite Hs in Hkept. by rewrite <- Hkept in Hne.
  - intros Hnone.
    assert (Hstrip : Helpers.strip_underscores
                       (Helpers.collapse_underscores
                          (Helpers.replace_unsafe filename)) = EmptyString).
    { unfold Helpers.strip_underscores.
      rewrite lstrip_all_underscores; [done|].
      by apply collapse_keeps, nothing_kept_all_underscores. }
    by rewrite Hstrip.
Qed.

Lemma sanitize_filename_keeps_other_characters_witness :
  Shape.kept_chars (Helpers.sanitize_filename "my document?.pdf")
  = "my document.pdf"
  ∧ Helpers.sanitize_filename "my document?.pdf" = "my document_.pdf"
  ∧ Helpers.sanitize_filename "<?>" = "document".
Proof.
  destruct (sanitize_filename_keeps_other_characters "my document?.pdf")
    as [Hkept _].
  destruct (sanitize_filename_keeps_other_characters "<?>") as [_ Hnone].
  split; [by rewrite Hkept|]. split; [reflexivity|]. by apply Hnone.
Defined.

(** ** What the gate makes of the summarizer's failure strings *)

Section GateOnFailures.

Lemma token_starts_append b p t :
  Spec.token_starts b (p +:+ t)
  = Spec.token_starts b p
    + Spec.token_starts (Shape.ends_after_space b p) t.
Proof.
  revert b. induction p as [|c p IH]; intros b; [done|].
  rewrite append_cons. cbn [Spec.token_starts Shape.ends_after_space].
  rewrite IH. lia.
Qed.

Lemma token_starts_weaken t : Spec.token_starts false t ≤ Spec.token_starts true t.
Proof. destruct t as [|c t]; cbn [Spec.token_starts]; [done|]. simpl. lia. Qed.

Lemma validate_summary_tokens s :
  ValidationAgent.validate_summary (Some s) = (5 <? Spec.token_count s).
Proof.
  cbn [ValidationAgent.validate_summary]. rewrite split_length.
  destruct s as [|c s]; [done | by cbn [Py.nonempty andb]].
Qed.

Lemma network_failure_passes m :
  ValidationAgent.validate_summary
    (Some ("Summarization failed due to network error: " +:+ m)) = true.
Proof.
  rewrite validate_summary_tokens. apply Nat.ltb_lt.
  unfold Spec.token_count. rewrite token_starts_append.
  change (Spec.token_starts true
            "Summarization failed due to network error: ") with 6. lia.
Qed.

Lemma http_failure_tokens body :
  Spec.token_count ("Summarization failed: " +:+ body)
  = 2 + Spec.token_count body.
Proof.
  unfold Spec.token_count. by rewrite token_starts_append.
Qed.

Lemma call_llm_network_failure E user_content w m :
  requests_post E (posted w)
    (Spec.summarizer_request E (Py.slice_to 4000 user_content))
  = PostRaised (RequestException m) →
  (SummarizerAgent._call_llm E user_content w).1
  = Ok ("Summarization failed due to network error: " +:+ m).
Proof.
  intros Hpost. unfold SummarizerAgent._call_llm. run_monad.
  change (requests_post E _ _) with
    (requests_post E (posted w)
       (Spec.summarizer_request E (Py.slice_to 4000 user_content))).
  by rewrite Hpost.
Qed.

Lemma call_llm_blank_answer E user_content w r c :
  requests_post E (posted w)
    (Spec.summarizer_request E (Py.slice_to 4000 user_content))
  = Responded r →
  status_code r = 200%Z → json_content r = Ok c → Py.all_space c = true →
  (SummarizerAgent._call_llm E user_content w).1
  = Ok "No summary generated.".
Proof.
  intros Hpost Hstatus Hjson Hblank.
  unfold SummarizerAgent._call_llm. run_monad.
  change (requests_post E _ _) with
    (requests_post E (posted w)
       (Spec.summarizer_request E (Py.slice_to 4000 user_content))).
  rewrite Hpost, Hstatus, Hjson. cbn [Z.eqb Pos.eqb fst].
  by rewrite strip_nonempty, Hblank.
Qed.

End GateOnFailures.

(** X27. What an upload returns as summary when the model call fails, for
    a supported file that is saved and parses to a text. A network error is not caught
    by the gate: its message "Summarization failed due to network error:
    ..." is stored and returned as the summary. An HTTP failure text
    "Summarization failed: <body>" is stored only when the body has more
    than 3 tokens and is rolled back otherwise, and an empty or blank
    model answer is always rolled back. *)
Theorem upload_summary_when_model_fails (E : env)
    (file : Documents.UploadFile) (doc_id : string) (w w0 w1 : world)
    (parsed : string) :
  let file_path := Shape.upload_path doc_id (Documents.filename file) in
  let rq := Spec.summarizer_request E
              (Py.slice_to 4000 (Spec.document_prompt +:+ parsed)) in
  Py.endswith_any (Documents.filename file) [".pdf"; ".docx"; ".html"] = true →
  write_file E file_path (Documents.data file) w = (Ok tt, w0) →
  ParserAgent.parse E file_path w0 = (Ok parsed, w1) →
  ∃ r w',
    Documents.upload_document E file doc_id w = (Ok r, w')
    ∧ (∀ m, requests_post E (posted w1) rq = PostRaised (RequestException m) →
         Documents.r_summary r
         = "Summarization failed due to network error: " +:+ m)
    ∧ (∀ resp, requests_post E (posted w1) rq = Responded resp →
         status_code resp ≠ 200%Z →
         Documents.r_summary r
         = if 3 <? Spec.token_count (text resp)
           then "Summarization failed: " +:+ text resp
           else "Summary rolled back due to low quality.")
    ∧ (∀ resp c, requests_post E (posted w1) rq = Responded resp →
         status_code resp = 200%Z → json_content resp = Ok c →
         Py.all_space c = true →
         Documents.r_summary r = "Summary rolled back due to low quality.").
Proof.
  intros file_path rq Hext Hwrite Hparse.
  rewrite upload_document_steps by done. fold file_path.
  rewrite Hwrite, Hparse.
  unfold SummarizerAgent.summarize_document.
  set (u := "Provide a section-wise summary of this document:"
            +:+ Py.newline +:+ parsed).
  assert (Hu : Spec.document_prompt +:+ parsed = u).
  { unfold Spec.document_prompt. by rewrite append_assoc. }
  subst rq. rewrite Hu.
  pose proof (call_llm_network_failure E u w1) as Hnet.
  pose proof (call_llm_http_failure E u w1) as Hhttp.
  pose proof (call_llm_blank_answer E u w1) as Hblank.
  destruct (call_llm_returns E u w1) as [reply Hreply].
  destruct (SummarizerAgent._call_llm E u w1) as [o w2].
  cbn [fst] in *. subst o.
  eexists _, _. split; [reflexivity|]. cbn [Documents.r_summary].
  split; [|split].
  - intros m Hpost. specialize (Hnet m Hpost). injection Hnet as ->.
    by rewrite network_failure_passes.
  - intros resp Hpost Hstatus. specialize (Hhttp resp Hpost Hstatus).
    injection Hhttp as ->.
    rewrite validate_summary_tokens, http_failure_tokens.
    change (5 <? 2 + Spec.token_count (text resp))
      with (3 <? Spec.token_count (text resp)). done.
  - intros resp c Hpost Hstatus Hjson Hc.
    specialize (Hblank resp c Hpost Hstatus Hjson Hc). by injection Hblank as ->.
Qed.

Lemma upload_summary_when_model_fails_witness :
  let E := Spec.fixed_env (PostRaised (RequestException "Connection timeout"))
             ["Budget Review on 3/4/24"] in
  let file := {| Documents.filename := "memo.pdf"; Documents.data := [] |} in
  ∃ r w',
    Documents.upload_document E file "doc-1" Spec.initial_world = (Ok r, w')
    ∧ Documents.r_summary r
      = "Summarization failed due to network error: Connection timeout".
Proof.
  intros E file.
  destruct (upload_summary_when_model_fails E file "doc-1" Spec.initial_world
              (write_file E "uploaded_docs/doc-1_memo.pdf" []
                 Spec.initial_world).2
              (Spec.record_open "uploaded_docs/doc-1_memo.pdf"
                 (write_file E "uploaded_docs/doc-1_memo.pdf" []
                    Spec.initial_world).2)
              "Budget Review on 3/4/24")
    as (r & w' & Hrun & Hnet & _); [reflexivity..|].
  exists r, w'. split; [exact Hrun|]. by apply Hnet.
Defined.
